(** * Gozer: a shallow embedding of the content pipeline of [gozer.go]

    The development follows the Go source function by function.  Go
    strings and byte slices are sequences of bytes ([list ascii]); [int]
    values that can be negative ([bytes.Index]) are in [Z]; [time.Time]
    is the instant it denotes, in seconds since 0001-01-01T00:00:00Z
    (the zero value of [time.Time]).  The operating system, the TOML
    decoder, the Markdown converter and [sort.Slice] are collaborators of
    the program: they are the fields of a [World] record that every
    effectful function receives. *)

From Stdlib Require Import String Ascii.
From Stdlib Require Import List ZArith Lia Bool Arith.
From Stdlib Require Import Permutation Sorted.
Import ListNotations.

Local Open Scope list_scope.

(** ** Go strings and byte slices *)

Definition gostring := list ascii.

Definition str (s : string) : gostring := list_ascii_of_string s.

(** The line feed that Go writes ["\n"]. *)
Definition LF : gostring := ["010"%char].

Fixpoint bytes_eqb (a b : gostring) : bool :=
  match a, b with
  | [], [] => true
  | x :: a', y :: b' => Ascii.eqb x y && bytes_eqb a' b'
  | _, _ => false
  end.

(** [s[i]] for an index the caller has checked against [len(s)]. *)
Definition byte_at (s : gostring) (i : nat) : ascii := nth i s Ascii.zero.

Module strings.

(** [strings.HasPrefix] / [bytes.HasPrefix]. *)
Fixpoint HasPrefix (s prefix : gostring) {struct prefix} : bool :=
  match prefix with
  | [] => true
  | p :: prefix' =>
      match s with
      | [] => false
      | c :: s' => Ascii.eqb c p && HasPrefix s' prefix'
      end
  end.

(** [strings.HasSuffix]:
    [len(s) >= len(suffix) && s[len(s)-len(suffix):] == suffix]. *)
Definition HasSuffix (s suffix : gostring) : bool :=
  (length suffix <=? length s)
  && bytes_eqb (skipn (length s - length suffix) s) suffix.

Definition TrimPrefix (s prefix : gostring) : gostring :=
  if HasPrefix s prefix then skipn (length prefix) s else s.

Definition TrimSuffix (s suffix : gostring) : gostring :=
  if HasSuffix s suffix then firstn (length s - length suffix) s else s.

(** First position at which [sep] occurs in [s]. *)
Fixpoint index_of (s sep : gostring) : option nat :=
  if HasPrefix s sep then Some 0
  else match s with
       | [] => None
       | _ :: s' => option_map S (index_of s' sep)
       end.

(** [strings.Index] / [bytes.Index]: the position as an [int], [-1] when
    [sep] does not occur. *)
Definition Index (s sep : gostring) : Z :=
  match index_of s sep with
  | Some i => Z.of_nat i
  | None => (-1)%Z
  end.

(** [strings.Split(s, sep)] for a one-byte separator: always at least one
    segment. *)
Fixpoint Split (s : gostring) (sep : ascii) : list gostring :=
  match s with
  | [] => [[]]
  | c :: s' =>
      if Ascii.eqb c sep then [] :: Split s' sep
      else match Split s' sep with
           | seg :: rest => (c :: seg) :: rest
           | [] => [[c]]
           end
  end.

End strings.

Module filepath.

Definition Separator : ascii := "/"%char.

(** [filepath.ToSlash] replaces [Separator] by a slash: the identity where
    the separator is the slash. *)
Definition ToSlash (path : gostring) : gostring := path.

Fixpoint strip_leading_slashes (s : gostring) : gostring :=
  match s with
  | c :: s' => if Ascii.eqb c Separator then strip_leading_slashes s' else s
  | [] => []
  end.

Definition strip_trailing_slashes (s : gostring) : gostring :=
  rev (strip_leading_slashes (rev s)).

(** The bytes after the last separator of [s] (all of [s] without one). *)
Fixpoint last_element (s : gostring) : gostring :=
  match s with
  | [] => []
  | c :: s' =>
      if existsb (Ascii.eqb Separator) s' then last_element s'
      else if Ascii.eqb c Separator then s' else s
  end.

(** [filepath.Base]: ["."] for the empty path; trailing separators are
    dropped before the last element is taken; a path of separators only
    gives the separator. *)
Definition Base (path : gostring) : gostring :=
  match path with
  | [] => str "."
  | _ =>
      match last_element (strip_trailing_slashes path) with
      | [] => [Separator]
      | b => b
      end
  end.

End filepath.

(** ** Time *)

Module time.

Local Open Scope Z_scope.

(** An instant, in seconds since 0001-01-01T00:00:00Z. *)
Definition Time := Z.

(** [time.Time{}]. *)
Definition zero : Time := 0.

Definition IsZero (t : Time) : bool := t =? 0.

(** [t.After(u)]. *)
Definition After (t u : Time) : bool := t >? u.

Definition isLeap (year : Z) : bool :=
  (year mod 4 =? 0) && (negb (year mod 100 =? 0) || (year mod 400 =? 0)).

Definition daysIn (month year : Z) : Z :=
  if month =? 2 then (if isLeap year then 29 else 28)
  else if (month =? 4) || (month =? 6) || (month =? 9) || (month =? 11)
       then 30 else 31.

(** Days of a non-leap year before the first of [month]. *)
Definition daysBefore (month : Z) : Z :=
  nth (Z.to_nat (month - 1))
      [0; 31; 59; 90; 120; 151; 181; 212; 243; 273; 304; 334] 0.

(** Days from 0001-01-01 to the first of January of [year]. *)
Definition daysSinceEpoch (year : Z) : Z :=
  let y := year - 1 in
  365 * y + y / 4 - y / 100 + y / 400.

(** [time.Date(year, month, day, 0, 0, 0, 0, time.UTC)]. *)
Definition Date (year month day : Z) : Time :=
  86400 * (daysSinceEpoch year + daysBefore month
           + (if isLeap year && (3 <=? month) then 1 else 0)
           + (day - 1)).

Definition isDigit (c : ascii) : bool :=
  (48 <=? nat_of_ascii c)%nat && (nat_of_ascii c <=? 57)%nat.

Definition digit (c : ascii) : Z := Z.of_nat (nat_of_ascii c) - 48.

(** [time.Parse("2006-01-02", value)]: four digits, a dash, two digits, a
    dash, two digits and nothing else; the month in 1..12 and the day in
    1..[daysIn]. [None] is a parse error. *)
Definition Parse_2006_01_02 (value : gostring) : option Time :=
  match value with
  | [y1; y2; y3; y4; s1; m1; m2; s2; d1; d2] =>
      if forallb isDigit [y1; y2; y3; y4; m1; m2; d1; d2]
         && Ascii.eqb s1 "-" && Ascii.eqb s2 "-"
      then
        let year := 1000 * digit y1 + 100 * digit y2 + 10 * digit y3 + digit y4 in
        let month := 10 * digit m1 + digit m2 in
        let day := 10 * digit d1 + digit d2 in
        if (1 <=? month) && (month <=? 12)
           && (1 <=? day) && (day <=? daysIn month year)
        then Some (Date year month day)
        else None
      else None
  | _ => None
  end.

End time.

(** ** Data model *)

Record Page := mkPage {
  Title : gostring;
  Tags : list gostring;
  Category : gostring;
  Template : gostring;
  DatePublished : time.Time;
  DateModified : time.Time;
  Permalink : gostring;
  UrlPath : gostring;
  Filepath : gostring
}.

Record Site := mkSite {
  pages : list Page;
  posts : list Page;
  SiteTitle : gostring;
  SiteUrl : gostring;
  RootDir : gostring
}.

(** ** parseFilename *)

Definition is_dated (filename : gostring) : bool :=
  (11 <? length filename)
  && Ascii.eqb (byte_at filename 4) "-"
  && Ascii.eqb (byte_at filename 7) "-"
  && Ascii.eqb (byte_at filename 10) "-".

Definition parseFilename (path rootDir : gostring) : gostring * time.Time :=
  let path := filepath.ToSlash path in
  let path := strings.TrimPrefix path (rootDir ++ str "content/") in
  let path := strings.TrimSuffix path (str ".md") in
  let path := strings.TrimSuffix path (str ".html") in
  let path := strings.TrimSuffix path (str "index") in
  let filename := filepath.Base path in
  let undated :=
    ((if negb (bytes_eqb path []) && negb (strings.HasSuffix path (str "/"))
      then path ++ str "/" else path),
     time.zero) in
  if is_dated filename then
    match time.Parse_2006_01_02 (firstn 10 filename) with
    | Some date =>
        (firstn (length path - length filename) path
           ++ skipn 11 filename ++ str "/",
         date)
    | None => undated
    end
  else undated.

(** The path once [parseFilename] has cut the content root and the
    extension from it, before it cuts "index". *)
Definition stripped_path (path rootDir : gostring) : gostring :=
  let path := filepath.ToSlash path in
  let path := strings.TrimPrefix path (rootDir ++ str "content/") in
  let path := strings.TrimSuffix path (str ".md") in
  strings.TrimSuffix path (str ".html").

(** A path in two parts: a directory prefix, empty or closed by a slash,
    and a final segment without slash. *)
Definition splits_as (path dir filename : gostring) : Prop :=
  path = dir ++ filename
  /\ ~ In filepath.Separator filename
  /\ (dir = [] \/ exists d : gostring, dir = d ++ [filepath.Separator]).

(** ** Errors, panics and the collaborators of the program *)

Inductive error :=
| PathError (op path : gostring)   (* [*fs.PathError] of [os.Stat], [os.Open], [os.ReadFile], [os.Create] *)
| EOF                              (* [io.EOF] *)
| Errorf (msg : gostring)          (* [fmt.Errorf] *)
| Foreign (msg : gostring).        (* an error value of the TOML decoder, the Markdown converter or the template engine *)

(** A Go call either returns or panics. *)
Inductive run (A : Type) : Type :=
| Returns (a : A)
| Panics (msg : gostring).

Arguments Returns {A} a.
Arguments Panics {A} msg.

Definition bind {A B : Type} (m : run A) (k : A -> run B) : run B :=
  match m with
  | Returns a => k a
  | Panics msg => Panics msg
  end.

Notation "x <- m ;; k" := (bind m (fun x => k))
  (at level 61, m at next level, right associativity).
Notation "' pat <- m ;; k" := (bind m (fun x => match x with pat => k end))
  (at level 61, pat pattern, m at next level, right associativity).

(** What [filepath.WalkDir] finds below a root: a file, or a directory with
    the entries [os.ReadDir] returned for it (sorted by name) and whether
    [os.ReadDir] also returned an error. *)
#[warnings="-register-all"]
Inductive tree :=
| File
| Dir (readErr : option error) (entries : list (gostring * tree)).

Record World := mkWorld {
  (** [os.Stat(path)]: the modification time, or an error. *)
  os_Stat : gostring -> time.Time + error;
  (** The bytes of the file at [path], or the error of opening it. *)
  file_bytes : gostring -> gostring + error;
  (** [os.Lstat] and [os.ReadDir] as [filepath.WalkDir] sees them at a root;
      [inr] is the error of [os.Lstat] on the root. *)
  walk_root : gostring -> tree + error;
  (** [toml.Unmarshal(data, p)]: the page as the decoder leaves it, and its
      error. *)
  toml_Unmarshal : gostring -> Page -> Page * option error;
  (** [md.Convert(source, w)]: what was written to [w], and its error. *)
  md_Convert : gostring -> gostring * option error;
  (** [sort.Slice(x, less)], with [less] on the elements. *)
  sort_Slice : (Page -> Page -> bool) -> list Page -> list Page;
  (** [filepath.Join] of two elements. *)
  filepath_Join : gostring -> gostring -> gostring;
  (** [template.New(name).Funcs(funcs).ParseGlob(pattern)]: the names of
      the templates loaded. *)
  ParseGlob : gostring -> list gostring + error;
  (** [toml.DecodeFile(file, s)]: the site as the decoder leaves it, and
      its error. *)
  toml_DecodeFile : gostring -> Site -> Site * option error;
  (** Creating the file [dest] (and its directories) and writing the
      document to it. *)
  write_output : gostring -> option error;
  (** [tmpl.Execute] of the named template for a page and its content. *)
  Execute : gostring -> Page -> gostring -> option error;
  (** [copyDirRecursively(src, dst)]. *)
  copyDirRecursively : gostring -> gostring -> option error;
  (** [time.Since(timeStart).Milliseconds()] at the last line of
      [buildSite]. *)
  Milliseconds : Z
}.

(** ** parseFrontMatter *)

Definition frontMatter : gostring := str "+++".

Definition missing_closing (file : gostring) : error :=
  Errorf (str "missing closing front-matter identifier in " ++ file).

(** [fh.Read(buf)] with [len(buf) = size] at the start of a file: the
    first [min size len(file)] bytes, [io.EOF] when there is none. *)
Definition Read (size : nat) (file : gostring) : gostring + error :=
  let n := Nat.min size (length file) in
  if (n =? 0)%nat then inr EOF else inl (firstn n file).

(** [parseFrontMatter] once [os.Open] has succeeded, on the bytes of the
    file. *)
Definition frontMatter_of (w : World) (p : Page) (file : gostring)
  : Page * option error :=
  match Read 1024 file with
  | inr err => (p, Some err)
  | inl buf =>
      if negb (strings.HasPrefix buf frontMatter) then (p, None)
      else
        (* strip front matter prefix *)
        let buf := skipn 3 buf in
        (* find pos of closing front matter *)
        let pos := strings.Index buf frontMatter in
        if (pos =? -1)%Z then (p, Some (missing_closing (Filepath p)))
        else toml_Unmarshal w (firstn (Z.to_nat pos) buf) p
  end.

Definition parseFrontMatter (w : World) (p : Page) : Page * option error :=
  match file_bytes w (Filepath p) with
  | inr err => (p, Some err)
  | inl file => frontMatter_of w p file
  end.

(** ** ParseContent *)

(** The "Skip front matter" step of [ParseContent]. *)
Definition skipFrontMatter (fileContent : gostring) : gostring :=
  if (6 <? length fileContent)%nat then
    let pos := strings.Index (skipn 3 fileContent) frontMatter in
    if (pos >? -1)%Z then skipn (Z.to_nat (pos + 6)) fileContent
    else fileContent
  else fileContent.

Definition ParseContent (w : World) (p : Page) : gostring * option error :=
  match file_bytes w (Filepath p) with
  | inr err => ([], Some err)
  | inl fileContent =>
      let fileContent := skipFrontMatter fileContent in
      (* If source file has HTML extension, return content directly *)
      if strings.HasSuffix (Filepath p) (str ".html") then (fileContent, None)
      else
        (* Otherwise, parse as Markdown *)
        match md_Convert w fileContent with
        | (_, Some err) => ([], Some err)
        | (buf2, None) => (buf2, None)
        end
  end.

(** ** AddPageFromFile *)

Definition index_out_of_range : gostring :=
  str "runtime error: index out of range [1] with length 1".

Definition nil_dereference : gostring :=
  str "runtime error: invalid memory address or nil pointer dereference".

(** [strings.Split(file, "/")[1]], then the [".md"] test: the category a
    page has before its header block is applied. *)
Definition category_of (file : gostring) : run gostring :=
  match nth_error (strings.Split file "/"%char) 1 with
  | None => Panics index_out_of_range
  | Some category =>
      Returns (if strings.HasSuffix category (str ".md") then str "page"
               else category)
  end.

Definition dated (p : Page) : bool := negb (time.IsZero (DatePublished p)).

Definition AddPageFromFile (w : World) (s : Site) (file : gostring)
  : run (Site * option error) :=
  match os_Stat w file with
  | inr err => Returns (s, Some err)
  | inl modTime =>
      let '(urlPath, datePublished) := parseFilename file (RootDir s) in
      category <- category_of file ;;
      let p := {| Title := [];
                  Tags := [];
                  Category := category;
                  Template := str "default.html";
                  DatePublished := datePublished;
                  DateModified := modTime;
                  Permalink := SiteUrl s ++ urlPath;
                  UrlPath := urlPath;
                  Filepath := file |} in
      match parseFrontMatter w p with
      | (_, Some err) => Returns (s, Some err)
      | (p, None) =>
          let pages' := pages s ++ [p] in
          (* every page with a date is assumed to be a blog post *)
          let posts' := if dated p then posts s ++ [p] else posts s in
          Returns ({| pages := pages'; posts := posts';
                      SiteTitle := SiteTitle s; SiteUrl := SiteUrl s;
                      RootDir := RootDir s |}, None)
      end
  end.

(** ** filepath.WalkDir and readContent *)

(** A [fs.WalkDirFunc] over a state [St]: the path, the entry [d]
    ([None] is a nil [fs.DirEntry], [Some b] one with [d.IsDir() = b]) and
    the error handed to the callback. *)
Definition WalkDirFunc (St : Type) : Type :=
  gostring -> option bool -> option error -> St -> run (St * option error).

Section WalkDir.

Context {St : Type} (fn : WalkDirFunc St).

(** [walkDir(path, d, walkDirFn)]. No [error] is [fs.SkipDir] or
    [fs.SkipAll], so the cases of [filepath.WalkDir] for them do not
    arise; [filepath.Join(path, name)] of a walked path and an entry name
    is [path/name]. *)
Fixpoint walkDir (path : gostring) (t : tree) (s : St) {struct t}
  : run (St * option error) :=
  match t with
  | File => fn path (Some false) None s
  | Dir readErr entries =>
      '(s, err) <- fn path (Some true) None s ;;
      match err with
      | Some e => Returns (s, Some e)
      | None =>
          '(s, err) <- match readErr with
                       | Some e => fn path (Some true) (Some e) s
                       | None => Returns (s, None)
                       end ;;
          match err with
          | Some e => Returns (s, Some e)
          | None =>
              (fix range (dirs : list (gostring * tree)) (s : St)
                 : run (St * option error) :=
                 match dirs with
                 | [] => Returns (s, None)
                 | (name, d1) :: dirs' =>
                     let path1 := path ++ str "/" ++ name in
                     '(s, err) <- walkDir path1 d1 s ;;
                     match err with
                     | Some e => Returns (s, Some e)
                     | None => range dirs' s
                     end
                 end) entries s
          end
      end
  end.

Definition WalkDir (root : gostring) (found : tree + error) (s : St)
  : run (St * option error) :=
  match found with
  | inr err => fn root None (Some err) s
  | inl t => walkDir root t s
  end.

End WalkDir.

(** The callback of [readContent]: [d.IsDir()] first, whatever [err]
    is. *)
Definition readContent_visit (w : World) : WalkDirFunc Site :=
  fun file d _ s =>
    match d with
    | None => Panics nil_dereference
    | Some true => Returns (s, None)
    | Some false => AddPageFromFile w s file
    end.

(** The [less] of [readContent], on the elements it compares. *)
Definition byDate (p q : Page) : bool :=
  time.After (DatePublished p) (DatePublished q).

Definition set_posts (s : Site) (ps : list Page) : Site :=
  {| pages := pages s; posts := ps; SiteTitle := SiteTitle s;
     SiteUrl := SiteUrl s; RootDir := RootDir s |}.

Definition readContent (w : World) (s : Site) (dir : gostring)
  : run (Site * option error) :=
  (* walk over files in "content" directory *)
  '(s, err) <- WalkDir (readContent_visit w) dir (walk_root w dir) s ;;
  (* sort posts by date *)
  Returns (set_posts s (sort_Slice w byDate (posts s)), err).

(** The callback invocations of a walk that no callback error cuts
    short, in order. *)
Fixpoint walk_calls (path : gostring) (t : tree) {struct t}
  : list (gostring * option bool * option error) :=
  match t with
  | File => [(path, Some false, None)]
  | Dir readErr entries =>
      (path, Some true, None)
      :: match readErr with
         | Some e => [(path, Some true, Some e)]
         | None => []
         end
      ++ (fix range (dirs : list (gostring * tree)) :=
            match dirs with
            | [] => []
            | (name, d1) :: dirs' =>
                walk_calls (path ++ str "/" ++ name) d1 ++ range dirs'
            end) entries
  end.

(** Callback invocations run in order until one returns an error. *)
Fixpoint run_calls {St : Type} (fn : WalkDirFunc St)
  (calls : list (gostring * option bool * option error)) (s : St)
  : run (St * option error) :=
  match calls with
  | [] => Returns (s, None)
  | (path, d, e) :: calls' =>
      '(s, err) <- fn path d e s ;;
      match err with
      | Some e => Returns (s, Some e)
      | None => run_calls fn calls' s
      end
  end.

Definition site_after (r : run (Site * option error)) (otherwise : Site) : Site :=
  match r with
  | Returns (s, _) => s
  | Panics _ => otherwise
  end.

(** ** filterPosts *)

(** [arr[i] = v] for [i < len(arr)]. *)
Fixpoint store {A : Type} (arr : list A) (i : nat) (v : A) : list A :=
  match arr, i with
  | [], _ => []
  | _ :: arr', O => v :: arr'
  | x :: arr', S i' => x :: store arr' i' v
  end.

(** One iteration of the loop of [filterPosts], at index [i]. *)
Definition filterPosts_step (tag : gostring) (st : list Page * nat) (i : nat)
  : list Page * nat :=
  let '(postsCopy, n) := st in
  match nth_error postsCopy i with
  | Some val =>
      if bytes_eqb (Category val) tag then (store postsCopy n val, S n)
      else (postsCopy, n)
  | None => (postsCopy, n)
  end.

Definition filterPosts (posts : list Page) (tag : gostring) : list Page :=
  if bytes_eqb tag (str "page") then posts
  else
    let postsCopy := posts in
    let '(postsCopy, n) :=
      fold_left (filterPosts_step tag) (seq 0 (length postsCopy)) (postsCopy, 0) in
    firstn n postsCopy.

(** ** createRSSFeed *)

Inductive logline :=
| Warn (format : gostring) (args : list gostring) (err : error)
| Info (format : gostring) (args : list Z).

Record Item := mkItem {
  ItemTitle : gostring;
  Link : gostring;
  Description : gostring;
  PubDate : time.Time;      (* formatted with [time.RFC1123Z] *)
  GUID : gostring
}.

Record Feed := mkFeed {
  ChannelTitle : gostring;
  ChannelLink : gostring;
  Generator : gostring;
  Items : list Item
}.

Definition item_of (p : Page) (pageContent : gostring) : Item :=
  {| ItemTitle := Title p;
     Link := Permalink p;
     Description := pageContent;
     PubDate := DatePublished p;
     GUID := Permalink p |}.

(** One iteration of the loop over [s.posts[0:n]]. *)
Definition feed_step (w : World) (st : list Item * list logline) (p : Page)
  : list Item * list logline :=
  let '(items, log) := st in
  match ParseContent w p with
  | (_, Some err) =>
      (items, log ++ [Warn (str "error parsing content of %s: %s") [Filepath p] err])
  | (pageContent, None) => (items ++ [item_of p pageContent], log)
  end.

(** The feed handed to the XML encoder, the lines logged and the error
    returned. *)
Definition createRSSFeed (w : World) (s : Site)
  : Feed * list logline * option error :=
  (* add 10 most recent posts to feed *)
  let n := length (posts s) in
  let n := if (10 <? n)%nat then 10%nat else n in
  let '(items, log) := fold_left (feed_step w) (firstn n (posts s)) ([], []) in
  let feed := {| ChannelTitle := SiteTitle s; ChannelLink := SiteUrl s;
                 Generator := str "Gozer"; Items := items |} in
  (feed, log, write_output w (str "build/feed.xml")).

(** ** createSitemap, buildPage, buildSite *)

(** The [<loc>] of every entry of the sitemap, and the error returned. *)
Definition createSitemap (w : World) (s : Site) : list gostring * option error :=
  (map Permalink (pages s),
   match write_output w (str "build/sitemap.xml") with
   | Some err => Some err
   | None => write_output w (str "build/sitemap.xsl")
   end).

Definition buildPage (w : World) (templates : list gostring) (s : Site)
  (p : Page) : option error :=
  match ParseContent w p with
  | (_, Some err) => Some err
  | (content, None) =>
      let dest :=
        filepath_Join w (filepath_Join w (str "build") (UrlPath p))
                      (str "index.html") in
      match write_output w dest with
      | Some err => Some err
      | None =>
          if existsb (bytes_eqb (Template p)) templates
          then Execute w (Template p) p content
          else Some (Errorf (str "invalid template name: " ++ Template p))
      end
  end.

(** ** parseConfig *)

Definition parseConfig (w : World) (s : Site) (file : gostring)
  : Site * option error :=
  match toml_DecodeFile w file s with
  | (s, Some err) => (s, Some err)
  | (s, None) =>
      (* ensure site url has trailing slash *)
      ({| pages := pages s; posts := posts s; SiteTitle := SiteTitle s;
          SiteUrl := if strings.HasSuffix (SiteUrl s) (str "/") then SiteUrl s
                     else SiteUrl s ++ str "/";
          RootDir := RootDir s |}, None)
  end.

(** Modelled from the spec: the logger [log] ([log.Info], [log.Warn],
    [log.Fatal]) is declared outside gozer.go.  Fatal: "build aborts
    immediately, no partial output guarantee"; per-page and per-manifest
    failures are "logged" and "the build continues".  A run of [buildSite]
    therefore ends in [log.Fatal], in a panic, or after its last line. *)
Inductive outcome :=
| Fatal (format : gostring) (err : error)
| Crashed (msg : gostring)
| Built (s : Site) (feed : Feed) (log : list logline).

Definition warn_of (format : gostring) (args : list gostring)
  (r : option error) : list logline :=
  match r with
  | Some err => [Warn format args err]
  | None => []
  end.

(** The pages are built one goroutine each; their log lines are listed in
    the order of [site.pages]. *)
Definition buildSite (w : World) (rootPath configFile : gostring) : outcome :=
  match ParseGlob w (filepath_Join w rootPath (str "templates/*.html")) with
  | inr err => Fatal (str "Error reading templates/ directory: %s") err
  | inl templates =>
      (* read config.xml *)
      let site := {| pages := []; posts := []; SiteTitle := [];
                     SiteUrl := []; RootDir := rootPath |} in
      match parseConfig w site (filepath_Join w rootPath configFile) with
      | (_, Some err) =>
          Fatal (str "Error reading configuration file at %s: %w" ++ LF) err
      | (site, None) =>
          (* read content *)
          match readContent w site (filepath_Join w rootPath (str "content")) with
          | Panics msg => Crashed msg
          | Returns (_, Some err) => Fatal (str "Error reading content/: %s") err
          | Returns (site, None) =>
              (* build each individual page *)
              let log1 :=
                flat_map (fun p => warn_of (str "Error processing %s: %s" ++ LF)
                                     [Filepath p] (buildPage w templates site p))
                         (pages site) in
              (* create XML sitemap *)
              let log2 := warn_of (str "Error creating sitemap: %s" ++ LF) []
                                  (snd (createSitemap w site)) in
              (* create RSS feed *)
              let '(feed, log3, err) := createRSSFeed w site in
              let log4 := warn_of (str "Error creating RSS feed: %s" ++ LF) []
                                  err in
              (* static files *)
              match copyDirRecursively w (filepath_Join w rootPath (str "public"))
                                       (str "build") with
              | Some err => Fatal (str "Error copying public/ directory: %s") err
              | None =>
                  Built site feed
                        (log1 ++ log2 ++ log3 ++ log4
                         ++ [Info (str "Built %d pages in %d ms" ++ LF)
                                  [Z.of_nat (length (pages site));
                                   Milliseconds w]])
              end
          end
      end
  end.

(** ** sort.Slice

    [sort.Slice] belongs to Go's standard library.  Its documentation
    promises a slice sorted for [less] and that "the sort is not guaranteed
    to be stable".  [sorts_with] is that contract; [sort.Slice] below is the
    algorithm of package sort since Go 1.19 ([pdqsort_func] of
    zsortfunc.go; gozer.go imports package slices, of Go 1.21) on a
    functional array, each loop with the number of iterations it can take.
    [Next] is the step of the generator that [breakPatterns_func] draws
    from. *)

Definition sorts_with {A : Type} (less : A -> A -> bool)
  (sort_by : (A -> A -> bool) -> list A -> list A) : Prop :=
  forall l : list A,
    Permutation l (sort_by less l)
    /\ StronglySorted (fun x y => less y x = false) (sort_by less l).

Module sort.

Section Func.

Context {A : Type} (less : A -> A -> bool) (Next : Z -> Z).

(** [data.Less(i, j)] and [data.Swap(i, j)]. *)
Definition Less (data : list A) (i j : nat) : bool :=
  match nth_error data i, nth_error data j with
  | Some x, Some y => less x y
  | _, _ => false
  end.

Definition Swap (data : list A) (i j : nat) : list A :=
  match nth_error data i, nth_error data j with
  | Some x, Some y => store (store data i y) j x
  | _, _ => data
  end.

(** [for j := i; j > a && data.Less(j, j-1); j-- { data.Swap(j, j-1) }] *)
Fixpoint insertion_inner (a j : nat) (data : list A) {struct j} : list A :=
  match j with
  | O => data
  | S j' =>
      if (a <? j)%nat && Less data j j'
      then insertion_inner a j' (Swap data j j')
      else data
  end.

Definition insertionSort_func (data : list A) (a b : nat) : list A :=
  fold_left (fun data i => insertion_inner a i data)
            (seq (a + 1) (b - (a + 1))) data.

Fixpoint siftDown_loop (fuel : nat) (data : list A) (root hi first : nat)
  : list A :=
  match fuel with
  | O => data
  | S fuel' =>
      let child := (2 * root + 1)%nat in
      if (hi <=? child)%nat then data
      else
        let child :=
          if (child + 1 <? hi)%nat
             && Less data (first + child) (first + child + 1)
          then (child + 1)%nat else child in
        if negb (Less data (first + root) (first + child)) then data
        else siftDown_loop fuel' (Swap data (first + root) (first + child))
                           child hi first
  end.

Definition siftDown_func (data : list A) (lo hi first : nat) : list A :=
  siftDown_loop hi data lo hi first.

Definition heapSort_func (data : list A) (a b : nat) : list A :=
  let first := a in
  let lo := 0%nat in
  let hi := (b - a)%nat in
  (* Build heap with greatest element at top. *)
  let data :=
    fold_left (fun data i => siftDown_func data i hi first)
              (rev (seq 0 ((hi - 1) / 2 + 1))) data in
  (* Pop elements, largest first, into end of data. *)
  fold_left (fun data i => siftDown_func (Swap data first (first + i)) lo i first)
            (rev (seq 0 hi)) data.

(** [for i <= j && data.Less(i, a) { i++ }], and the same loop with
    [!data.Less(a, i)]. *)
Fixpoint scan_up (test : nat -> bool) (fuel i j : nat) : nat :=
  match fuel with
  | O => i
  | S fuel' => if (i <=? j)%nat && test i then scan_up test fuel' (S i) j else i
  end.

(** [for i <= j && !data.Less(j, a) { j-- }], and the same loop with
    [data.Less(a, j)]. *)
Fixpoint scan_down (test : nat -> bool) (i j : nat) : nat :=
  match j with
  | O => O
  | S j' => if (i <=? j)%nat && test j then scan_down test i j' else j
  end.

Fixpoint partition_loop (fuel : nat) (data : list A) (a i j : nat)
  : list A * nat :=
  match fuel with
  | O => (data, j)
  | S fuel' =>
      let i := scan_up (fun i => Less data i a) (length data) i j in
      let j := scan_down (fun j => negb (Less data j a)) i j in
      if (j <? i)%nat then (data, j)
      else partition_loop fuel' (Swap data i j) a (i + 1) (j - 1)
  end.

Definition partition_func (data : list A) (a b pivot : nat)
  : list A * nat * bool :=
  let data := Swap data a pivot in
  let i := (a + 1)%nat in
  let j := (b - 1)%nat in
  let i := scan_up (fun i => Less data i a) (length data) i j in
  let j := scan_down (fun j => negb (Less data j a)) i j in
  if (j <? i)%nat then (Swap data j a, j, true)
  else
    let data := Swap data i j in
    let '(data, j) := partition_loop (length data) data a (i + 1) (j - 1) in
    (Swap data j a, j, false).

Fixpoint partitionEqual_loop (fuel : nat) (data : list A) (a i j : nat)
  : list A * nat :=
  match fuel with
  | O => (data, i)
  | S fuel' =>
      let i := scan_up (fun i => negb (Less data a i)) (length data) i j in
      let j := scan_down (fun j => Less data a j) i j in
      if (j <? i)%nat then (data, i)
      else partitionEqual_loop fuel' (Swap data i j) a (i + 1) (j - 1)
  end.

Definition partitionEqual_func (data : list A) (a b pivot : nat)
  : list A * nat :=
  let data := Swap data a pivot in
  partitionEqual_loop (length data) data a (a + 1) (b - 1).

(** [for j := i - 1; j >= 1; j-- { if !data.Less(j, j-1) { break }; data.Swap(j, j-1) }] *)
Fixpoint shift_left (j : nat) (data : list A) {struct j} : list A :=
  match j with
  | O => data
  | S j' => if Less data j j' then shift_left j' (Swap data j j') else data
  end.

(** [for j := i + 1; j < b; j++ { if !data.Less(j, j-1) { break }; data.Swap(j, j-1) }] *)
Fixpoint shift_right (fuel j b : nat) (data : list A) : list A :=
  match fuel with
  | O => data
  | S fuel' =>
      if (j <? b)%nat && Less data j (j - 1)
      then shift_right fuel' (S j) b (Swap data j (j - 1))
      else data
  end.

Definition maxSteps : nat := 5.
Definition shortestShifting : nat := 50.

Fixpoint partialInsertionSort_loop (steps : nat) (data : list A) (a b i : nat)
  : list A * bool :=
  match steps with
  | O => (data, false)
  | S steps' =>
      let i := scan_up (fun i => negb (Less data i (i - 1))) (length data)
                       i (b - 1) in
      if (i =? b)%nat then (data, true)
      else if (b - a <? shortestShifting)%nat then (data, false)
      else
        let data := Swap data i (i - 1) in
        (* Shift the smaller one to the left. *)
        let data := if (2 <=? i - a)%nat then shift_left (i - 1) data else data in
        (* Shift the greater one to the right. *)
        let data := if (2 <=? b - i)%nat
                    then shift_right (length data) (i + 1) b data else data in
        partialInsertionSort_loop steps' data a b i
  end.

Definition partialInsertionSort_func (data : list A) (a b : nat)
  : list A * bool :=
  partialInsertionSort_loop maxSteps data a b (a + 1).

(** [bits.Len(uint(n))]. *)
Definition bits_Len (n : nat) : nat :=
  match n with
  | O => O
  | _ => S (Nat.log2 n)
  end.

Definition nextPowerOfTwo (length : nat) : Z := Z.shiftl 1 (Z.of_nat (bits_Len length)).

Fixpoint breakPatterns_loop (count : nat) (data : list A) (random : Z)
  (modulus : Z) (a length idx i : nat) : list A :=
  match count with
  | O => data
  | S count' =>
      let random := Next random in
      let other := Z.to_nat (Z.land random (modulus - 1)) in
      let other := if (length <=? other)%nat then (other - length)%nat else other in
      breakPatterns_loop count' (Swap data (idx - 1 + i) (a + other))
                         random modulus a length idx (S i)
  end.

Definition breakPatterns_func (data : list A) (a b : nat) : list A :=
  let length := (b - a)%nat in
  if (8 <=? length)%nat then
    let random := Z.of_nat length in
    let modulus := nextPowerOfTwo length in
    let idx := (a + (length / 4) * 2 - 1)%nat in
    breakPatterns_loop 3 data random modulus a length idx 0
  else data.

Inductive sortedHint := unknownHint | increasingHint | decreasingHint.

(** [order2_func]: the two indices in order, and the swaps counted. *)
Definition order2_func (data : list A) (a b swaps : nat) : nat * nat * nat :=
  if Less data b a then (b, a, S swaps) else (a, b, swaps).

Definition median_func (data : list A) (a b c swaps : nat) : nat * nat :=
  let '(a, b, swaps) := order2_func data a b swaps in
  let '(b, c, swaps) := order2_func data b c swaps in
  let '(a, b, swaps) := order2_func data a b swaps in
  (b, swaps).

Definition medianAdjacent_func (data : list A) (a swaps : nat) : nat * nat :=
  median_func data (a - 1) a (a + 1) swaps.

Definition shortestNinther : nat := 50.
Definition maxSwaps : nat := 4 * 3.

Definition choosePivot_func (data : list A) (a b : nat) : nat * sortedHint :=
  let l := (b - a)%nat in
  let swaps := 0%nat in
  let i := (a + l / 4 * 1)%nat in
  let j := (a + l / 4 * 2)%nat in
  let k := (a + l / 4 * 3)%nat in
  let '(j, swaps) :=
    if (8 <=? l)%nat then
      let '(i, j, k, swaps) :=
        if (shortestNinther <=? l)%nat then
          let '(i, swaps) := medianAdjacent_func data i swaps in
          let '(j, swaps) := medianAdjacent_func data j swaps in
          let '(k, swaps) := medianAdjacent_func data k swaps in
          (i, j, k, swaps)
        else (i, j, k, swaps) in
      median_func data i j k swaps
    else (j, swaps) in
  if (swaps =? 0)%nat then (j, increasingHint)
  else if (swaps =? maxSwaps)%nat then (j, decreasingHint)
  else (j, unknownHint).

Fixpoint reverseRange_loop (fuel : nat) (data : list A) (i j : nat) : list A :=
  match fuel with
  | O => data
  | S fuel' =>
      if (i <? j)%nat then reverseRange_loop fuel' (Swap data i j) (S i) (j - 1)
      else data
  end.

Definition reverseRange_func (data : list A) (a b : nat) : list A :=
  reverseRange_loop (b - a) data a (b - 1).

Definition maxInsertion : nat := 12.

Definition is_increasing (h : sortedHint) : bool :=
  match h with increasingHint => true | _ => false end.

Definition is_decreasing (h : sortedHint) : bool :=
  match h with decreasingHint => true | _ => false end.

(** [pdqsort_func(data, a, b, limit)], entered with [wasBalanced] and
    [wasPartitioned]: every turn of its loop and every recursive call
    takes one unit of [fuel]; [None] when the fuel is spent. *)
Fixpoint pdqsort_loop (fuel : nat) (data : list A) (a b limit : nat)
  (wasBalanced wasPartitioned : bool) : option (list A) :=
  match fuel with
  | O => None
  | S fuel' =>
      let length := (b - a)%nat in
      if (length <=? maxInsertion)%nat then Some (insertionSort_func data a b)
      else if (limit =? 0)%nat then Some (heapSort_func data a b)
      else
        (* If the last partitioning was imbalanced, we need to breakPatterns. *)
        let '(data, limit) :=
          if negb wasBalanced then (breakPatterns_func data a b, (limit - 1)%nat)
          else (data, limit) in
        let '(pivot, hint) := choosePivot_func data a b in
        let '(data, pivot, hint) :=
          if is_decreasing hint
          then (reverseRange_func data a b, ((b - 1) - (pivot - a))%nat,
                increasingHint)
          else (data, pivot, hint) in
        (* The slice is likely already sorted. *)
        let '(data, done) :=
          if wasBalanced && wasPartitioned && is_increasing hint
          then partialInsertionSort_func data a b
          else (data, false) in
        if done then Some data
        else if (0 <? a)%nat && negb (Less data (a - 1) pivot) then
          let '(data, mid) := partitionEqual_func data a b pivot in
          pdqsort_loop fuel' data mid b limit wasBalanced wasPartitioned
        else
          let '(data, mid, alreadyPartitioned) := partition_func data a b pivot in
          let wasPartitioned := alreadyPartitioned in
          let leftLen := (mid - a)%nat in
          let rightLen := (b - mid)%nat in
          let balanceThreshold := (length / 8)%nat in
          if (leftLen <? rightLen)%nat then
            let wasBalanced := (balanceThreshold <=? leftLen)%nat in
            match pdqsort_loop fuel' data a mid limit true true with
            | None => None
            | Some data =>
                pdqsort_loop fuel' data (mid + 1) b limit wasBalanced wasPartitioned
            end
          else
            let wasBalanced := (balanceThreshold <=? rightLen)%nat in
            match pdqsort_loop fuel' data (mid + 1) b limit true true with
            | None => None
            | Some data =>
                pdqsort_loop fuel' data a mid limit wasBalanced wasPartitioned
            end
  end.

Definition pdqsort_func (data : list A) (a b limit : nat) : option (list A) :=
  pdqsort_loop (S (b - a)) data a b limit true true.

(** [sort.Slice(x, less)]: the slice after the call. *)
Definition Slice (x : list A) : list A :=
  let length := List.length x in
  let limit := bits_Len length in
  match pdqsort_func x 0 length limit with
  | Some data => data
  | None => x
  end.

End Func.

(** The generator of [breakPatterns_func], on [uint64]. *)
Definition xorshift_Next (r : Z) : Z :=
  let r := Z.lxor r (Z.shiftl r 13 mod 2 ^ 64) in
  let r := Z.lxor r (Z.shiftr r 7) in
  Z.lxor r (Z.shiftl r 17 mod 2 ^ 64).

End sort.

(** A sort by insertion: one function that meets [sorts_with]. *)
Fixpoint insert_by {A : Type} (less : A -> A -> bool) (x : A) (l : list A)
  : list A :=
  match l with
  | [] => [x]
  | y :: l' => if less y x then y :: insert_by less x l' else x :: l
  end.

Definition insertion_sort {A : Type} (less : A -> A -> bool) (l : list A)
  : list A :=
  fold_right (insert_by less) [] l.

(** ** Example sites *)

Fixpoint lookup {V : Type} (files : list (gostring * V)) (path : gostring)
  : option V :=
  match files with
  | [] => None
  | (name, v) :: files' =>
      if bytes_eqb name path then Some v else lookup files' path
  end.

(** [filepath.Join] of two elements without "." or ".." segments and
    without doubled slashes: the non-empty ones, a slash between them, no
    slash at the end. *)
Definition join2 (a b : gostring) : gostring :=
  filepath.strip_trailing_slashes
    match a, b with
    | [], _ => b
    | _, [] => a
    | _, _ => filepath.strip_trailing_slashes a ++ str "/" ++ b
    end.

(** A world with the given files (all modified at the same instant) below
    one walked root, a header decoder that sets no field, the
    configuration of the scaffold, a Markdown converter that copies its
    input, and every output writable. *)
Definition static_world (files : list (gostring * gostring)) (root : tree)
  (sort_by : (Page -> Page -> bool) -> list Page -> list Page) : World :=
  {| os_Stat := fun path =>
       match lookup files path with
       | Some _ => inl (time.Date 2024 1 1)
       | None => inr (PathError (str "stat") path)
       end;
     file_bytes := fun path =>
       match lookup files path with
       | Some bytes => inl bytes
       | None => inr (PathError (str "open") path)
       end;
     walk_root := fun _ => inl root;
     toml_Unmarshal := fun _ p => (p, None);
     md_Convert := fun source => (source, None);
     sort_Slice := sort_by;
     filepath_Join := join2;
     ParseGlob := fun _ => inl [str "default.html"];
     toml_DecodeFile := fun _ s =>
       ({| pages := pages s; posts := posts s;
           SiteTitle := str "My website";
           SiteUrl := str "http://localhost:8080";
           RootDir := RootDir s |}, None);
     write_output := fun _ => None;
     Execute := fun _ _ _ => None;
     copyDirRecursively := fun _ _ => None;
     Milliseconds := 12 |}.

Definition empty_site (rootDir : gostring) : Site :=
  {| pages := []; posts := []; SiteTitle := str "My website";
     SiteUrl := str "http://localhost:8080/"; RootDir := rootDir |}.

(** content/a.md opens a header block and never closes it; content/b.md
    has no header block. *)
Definition unclosed_files : list (gostring * gostring) :=
  [ (str "content/a.md", str "+++" ++ ["010"%char] ++ str "title = 'A'" ++ ["010"%char] ++ str "text");
    (str "content/b.md", str "Welcome.") ].

Definition unclosed_tree : tree :=
  Dir None [ (str "a.md", File); (str "b.md", File) ].

Definition unclosed_world : World :=
  static_world unclosed_files unclosed_tree insertion_sort.

(** Twelve posts of 2023-01-01 and one of 2023-01-02, in one directory. *)
Definition thirteen_names : list gostring :=
  map (fun c => str "2023-01-01-" ++ [c] ++ str ".md")
      (str "abcdefghijkl")
  ++ [str "2023-01-02-m.md"].

Definition thirteen_files : list (gostring * gostring) :=
  map (fun name => (str "content/" ++ name, str "text")) thirteen_names.

Definition thirteen_tree : tree :=
  Dir None (map (fun name => (name, File)) thirteen_names).

Definition thirteen_world : World :=
  static_world thirteen_files thirteen_tree
               (fun less => sort.Slice less sort.xorshift_Next).

(** content/long.md: a header block of 1021 bytes between its delimiters,
    so that the closing delimiter starts at byte 1024. *)
Definition long_header_file : gostring :=
  str "+++" ++ repeat "a"%char 1021 ++ str "+++" ++ str "body".

Definition long_header_world : World :=
  static_world [(str "content/long.md", long_header_file)]
               (Dir None [(str "long.md", File)]) insertion_sort.

Definition page_at (file : gostring) : Page :=
  {| Title := []; Tags := []; Category := str "page";
     Template := str "default.html"; DatePublished := time.zero;
     DateModified := time.zero; Permalink := []; UrlPath := [];
     Filepath := file |}.

(** content/notes.html has no header block, and "+++" in its text. *)
Definition notes_file : gostring :=
  str "<p>Rated +++ by readers</p>".

Definition notes_world : World :=
  static_world [(str "content/notes.html", notes_file)]
               (Dir None [(str "notes.html", File)]) insertion_sort.

(** content/about.html: a header block, then hand-written HTML. *)
Definition about_file : gostring :=
  str "+++" ++ ["010"%char] ++ str "title = 'About'" ++ ["010"%char]
  ++ str "+++" ++ ["010"%char] ++ str "<h1>About</h1>".

Definition about_world : World :=
  static_world [(str "content/about.html", about_file)]
               (Dir None [(str "about.html", File)]) insertion_sort.

(** ** The feed, as the specification words it

    "up to the 10 most recent posts (a prefix), each entry re-rendering that
    page's body through the Content Renderer; a render failure for one feed
    entry is logged and that entry is omitted". *)
Definition feed_entry (w : World) (p : Page) : list Item :=
  match ParseContent w p with
  | (pageContent, None) => [item_of p pageContent]
  | (_, Some _) => []
  end.

Definition feed_warning (w : World) (p : Page) : list logline :=
  match ParseContent w p with
  | (_, None) => []
  | (_, Some err) =>
      [Warn (str "error parsing content of %s: %s") [Filepath p] err]
  end.

(** Two posts and a page, as [filterPosts] receives them. *)
Definition tagged (category : gostring) (file : gostring) : Page :=
  {| Title := []; Tags := []; Category := category;
     Template := str "default.html"; DatePublished := time.Date 2023 5 1;
     DateModified := time.zero; Permalink := []; UrlPath := [];
     Filepath := file |}.

Definition three_pages : list Page :=
  [ tagged (str "blog") (str "content/blog/2023-05-01-a.md");
    tagged (str "notes") (str "content/notes/2023-05-01-b.md");
    tagged (str "blog") (str "content/blog/2023-05-01-c.md") ].

(** site/content/blog/2023-05-01-hello.md, in a project rooted at
    site/. *)
Definition rooted_world : World :=
  static_world [(str "site/content/blog/2023-05-01-hello.md", str "Hello.")]
               (Dir None [(str "blog", Dir None [(str "2023-05-01-hello.md", File)])])
               insertion_sort.

Definition thirteen_world_by_insertion : World :=
  static_world thirteen_files thirteen_tree insertion_sort.

(** ** Claims as the specification words them *)

(** "the walk of sibling files continues": every walked file that
    [AddPageFromFile] accepts is a page after [readContent]. *)
Definition siblings_registered (w : World) (s : Site) (dir : gostring) : Prop :=
  forall (t : tree) (s' : Site) (err : option error) (file : gostring),
    walk_root w dir = inl t ->
    readContent w s dir = Returns (s', err) ->
    In (file, Some false, None) (walk_calls dir t) ->
    (exists s1 : Site, AddPageFromFile w s file = Returns (s1, None)) ->
    In file (map Filepath (pages s')).

(** "the build as a whole is not aborted". *)
Definition build_completes (w : World) (rootPath configFile : gostring) : Prop :=
  exists (site : Site) (feed : Feed) (log : list logline),
    buildSite w rootPath configFile = Built site feed log.

Definition descending (l : list Page) : Prop :=
  forall (i : nat) (p q : Page),
    nth_error l i = Some p ->
    nth_error l (S i) = Some q ->
    (DatePublished p >= DatePublished q)%Z.

Definition published_at (d : time.Time) (p : Page) : bool :=
  (DatePublished p =? d)%Z.

(** "posts with equal datePublished retain their original discovery
    order": at every date, the posts of that date are in the order of
    [pages]. *)
Definition ties_in_walk_order (s : Site) : Prop :=
  forall d : time.Time,
    filter (published_at d) (posts s)
    = filter (published_at d) (filter dated (pages s)).

Definition posts_sorted_stably (w : World) (s : Site) (dir : gostring) : Prop :=
  forall (s' : Site) (err : option error),
    readContent w s dir = Returns (s', err) ->
    descending (posts s') /\ ties_in_walk_order s'.

(** ** Walks, seen from outside *)

(** The files among the calls of a walk, in order. *)
Definition walk_files (calls : list (gostring * option bool * option error))
  : list gostring :=
  flat_map (fun c : gostring * option bool * option error =>
              match c with
              | (path, Some false, _) => [path]
              | _ => []
              end) calls.

(** The same tree, every [os.ReadDir] without error. *)
Fixpoint without_readErr (t : tree) : tree :=
  match t with
  | File => File
  | Dir _ entries =>
      Dir None (map (fun e : gostring * tree =>
                       (fst e, without_readErr (snd e))) entries)
  end.

(** The world [w] with another answer of [os.Lstat] and [os.ReadDir]. *)
Definition with_walk_root (w : World) (found : gostring -> tree + error)
  : World :=
  {| os_Stat := os_Stat w;
     file_bytes := file_bytes w;
     walk_root := found;
     toml_Unmarshal := toml_Unmarshal w;
     md_Convert := md_Convert w;
     sort_Slice := sort_Slice w;
     filepath_Join := filepath_Join w;
     ParseGlob := ParseGlob w;
     toml_DecodeFile := toml_DecodeFile w;
     write_output := write_output w;
     Execute := Execute w;
     copyDirRecursively := copyDirRecursively w;
     Milliseconds := Milliseconds w |}.

(** A project without content directory. *)
Definition no_content_world : World :=
  with_walk_root unclosed_world
                 (fun root => inr (PathError (str "lstat") root)).

(** content/empty.md has no bytes. *)
Definition empty_file_world : World :=
  static_world [(str "content/empty.md", [])]
               (Dir None [(str "empty.md", File)]) insertion_sort.

(** content/blog cannot be listed in full: [os.ReadDir] returns one entry
    and an error. *)
Definition unlisted_tree : tree :=
  Dir None [ (str "about.md", File);
             (str "blog", Dir (Some (PathError (str "readdirent") (str "content/blog")))
                              [(str "2023-05-01-hello.md", File)]) ].

Definition unlisted_world : World :=
  static_world [ (str "content/about.md", str "About.");
                 (str "content/blog/2023-05-01-hello.md", str "Hello.") ]
               unlisted_tree insertion_sort.

(** The page that [AddPageFromFile] appends for [file], when it does. *)
Definition page_added (w : World) (s : Site) (file : gostring) : option Page :=
  match AddPageFromFile w s file with
  | Returns (s', None) => nth_error (pages s') (length (pages s))
  | _ => None
  end.

(** The lines logged by a build that ends after its last line. *)
Definition log_of (o : outcome) : list logline :=
  match o with
  | Built _ _ log => log
  | _ => []
  end.

(** The world [w] with other templates loaded. *)
Definition with_templates (w : World) (names : list gostring) : World :=
  {| os_Stat := os_Stat w;
     file_bytes := file_bytes w;
     walk_root := walk_root w;
     toml_Unmarshal := toml_Unmarshal w;
     md_Convert := md_Convert w;
     sort_Slice := sort_Slice w;
     filepath_Join := filepath_Join w;
     ParseGlob := fun _ => inl names;
     toml_DecodeFile := toml_DecodeFile w;
     write_output := write_output w;
     Execute := Execute w;
     copyDirRecursively := copyDirRecursively w;
     Milliseconds := Milliseconds w |}.

(** The site of content/about.html, with base.html as its only
    template. *)
Definition no_default_template_world : World :=
  with_templates about_world [str "base.html"].

(** content/blank.html: an empty header block and nothing after it. *)
Definition blank_file : gostring := str "++++++".

Definition blank_world : World :=
  static_world [(str "content/blank.html", blank_file)]
               (Dir None [(str "blank.html", File)]) insertion_sort.

(** content/a.md and content/c.md have no header block; content/b.md
    opens one and never closes it. *)
Definition second_unclosed_world : World :=
  static_world
    [ (str "content/a.md", str "First.");
      (str "content/b.md", str "+++" ++ LF ++ str "title = 'B'" ++ LF ++ str "text");
      (str "content/c.md", str "Third.") ]
    (Dir None [ (str "a.md", File); (str "b.md", File); (str "c.md", File) ])
    insertion_sort.

(** * Properties *)

(** ** The library functions on sample inputs *)

Example Split_three : strings.Split (str "content/blog/a.md") "/"%char
                      = [str "content"; str "blog"; str "a.md"].
Proof. reflexivity. Qed.

Example Split_without_separator :
  strings.Split (str "content") "/"%char = [str "content"].
Proof. reflexivity. Qed.

Example Index_absent_is_minus_one :
  strings.Index (str "title = 1") (str "+++") = (-1)%Z.
Proof. reflexivity. Qed.

Example Base_samples :
  filepath.Base (str "blog/2023-05-01-hello") = str "2023-05-01-hello"
  /\ filepath.Base (str "blog/2023-05-01-hello/") = str "2023-05-01-hello"
  /\ filepath.Base [] = str "."
  /\ filepath.Base (str "//") = str "/".
Proof. repeat split; reflexivity. Qed.

Example Parse_samples :
  time.Parse_2006_01_02 (str "2024-02-29") = Some (time.Date 2024 2 29)
  /\ time.Parse_2006_01_02 (str "2023-02-29") = None
  /\ time.Parse_2006_01_02 (str "2023-13-01") = None
  /\ time.Parse_2006_01_02 (str "2023-1x-01") = None
  /\ time.Parse_2006_01_02 (str "0001-01-01") = Some time.zero
  /\ (time.Date 1970 1 1 = 86400 * 719162)%Z.
Proof. repeat split; reflexivity. Qed.

Example parseFilename_samples :
  parseFilename (str "content/blog/2023-05-01-hello.md") []
  = (str "blog/hello/", time.Date 2023 5 1)
  /\ parseFilename (str "content/about.md") [] = (str "about/", time.zero)
  /\ parseFilename (str "content/index.md") [] = ([], time.zero)
  /\ parseFilename (str "content/projects/index.html") []
     = (str "projects/", time.zero)
  /\ parseFilename (str "content/2023-02-30-x.md") []
     = (str "2023-02-30-x/", time.zero).
Proof. repeat split; vm_compute; reflexivity. Qed.

Example Slice_sorts_a_sample :
  sort.Slice Z.ltb sort.xorshift_Next
             [5; 3; 9; 1; 1; 8; 2; 7; 6; 4; 0; 11; 10; 3; 12; 5; 2]%Z
  = [0; 1; 1; 2; 2; 3; 3; 4; 5; 5; 6; 7; 8; 9; 10; 11; 12]%Z.
Proof. vm_compute. reflexivity. Qed.

(** ** Byte strings *)

Lemma bytes_eqb_refl (a : gostring) : bytes_eqb a a = true.
Proof.
  induction a as [|x a IH]; simpl; [reflexivity|].
  now rewrite Ascii.eqb_refl.
Qed.

Lemma bytes_eqb_eq (a b : gostring) : bytes_eqb a b = true <-> a = b.
Proof.
  split.
  - revert b. induction a as [|x a IH]; intros [|y b] H; simpl in H;
      try discriminate; [reflexivity|].
    apply andb_true_iff in H as [Hx Hab].
    apply Ascii.eqb_eq in Hx. now rewrite Hx, (IH b Hab).
  - intros ->. apply bytes_eqb_refl.
Qed.

Lemma bytes_eqb_neq (a b : gostring) : bytes_eqb a b = false <-> a <> b.
Proof.
  split.
  - intros H E. apply bytes_eqb_eq in E. congruence.
  - intros H. destruct (bytes_eqb a b) eqn:E; [|reflexivity].
    apply bytes_eqb_eq in E. contradiction.
Qed.

Lemma HasPrefix_length (s prefix : gostring) :
  strings.HasPrefix s prefix = true -> length prefix <= length s.
Proof.
  revert s. induction prefix as [|c prefix IH]; intros s H; simpl.
  - lia.
  - destruct s as [|d s]; simpl in H; [discriminate|].
    apply andb_true_iff in H as [_ H]. apply IH in H. simpl. lia.
Qed.

Lemma HasPrefix_app (prefix s : gostring) :
  strings.HasPrefix (prefix ++ s) prefix = true.
Proof.
  induction prefix as [|c prefix IH]; simpl; [reflexivity|].
  now rewrite Ascii.eqb_refl.
Qed.

Lemma HasPrefix_inv (s prefix : gostring) :
  strings.HasPrefix s prefix = true -> s = prefix ++ skipn (length prefix) s.
Proof.
  revert s. induction prefix as [|c prefix IH]; intros s H; simpl.
  - reflexivity.
  - destruct s as [|d s]; simpl in H; [discriminate|].
    apply andb_true_iff in H as [Hc H].
    apply Ascii.eqb_eq in Hc. subst d. f_equal. now apply IH.
Qed.

(** A prefix of [s] long enough to hold [prefix] starts with it exactly when
    [s] does. *)
Lemma HasPrefix_firstn (k : nat) (s prefix : gostring) :
  length prefix <= k ->
  strings.HasPrefix (firstn k s) prefix = strings.HasPrefix s prefix.
Proof.
  revert k s. induction prefix as [|c prefix IH]; intros k s Hk.
  - reflexivity.
  - simpl in Hk. destruct k as [|k]; [lia|].
    destruct s as [|d s]; simpl; [reflexivity|].
    rewrite IH by lia. reflexivity.
Qed.

Lemma firstn_min_length {A : Type} (k : nat) (l : list A) :
  firstn (Nat.min k (length l)) l = firstn k l.
Proof.
  destruct (Nat.le_ge_cases k (length l)) as [H|H].
  - now rewrite Nat.min_l.
  - rewrite Nat.min_r by assumption.
    now rewrite firstn_all, firstn_all2.
Qed.

(** An occurrence found in a prefix of [s] is the first occurrence in [s]
    and lies inside the prefix. *)
Lemma index_of_firstn (k : nat) (s sep : gostring) (i : nat) :
  strings.index_of (firstn k s) sep = Some i ->
  strings.index_of s sep = Some i /\ i + length sep <= k.
Proof.
  revert k i. induction s as [|c s IH]; intros k i H.
  - rewrite firstn_nil in H. simpl in H.
    destruct (strings.HasPrefix [] sep) eqn:E; [|discriminate].
    injection H as <-. apply HasPrefix_length in E as L. simpl in L.
    simpl. rewrite E. split; [reflexivity|lia].
  - destruct k as [|k].
    + simpl in H. destruct (strings.HasPrefix [] sep) eqn:E; [|discriminate].
      injection H as <-. apply HasPrefix_length in E as L. simpl in L.
      destruct sep; [|simpl in L; lia]. simpl. split; [reflexivity|lia].
    + rewrite firstn_cons in H. simpl in H.
      destruct (strings.HasPrefix (c :: firstn k s) sep) eqn:E.
      * injection H as <-.
        apply HasPrefix_length in E as L. simpl in L.
        assert (Lk : length sep <= S k).
        { pose proof (firstn_le_length k s). lia. }
        rewrite <- firstn_cons, HasPrefix_firstn in E by assumption.
        simpl. rewrite E. split; [reflexivity|lia].
      * destruct (strings.index_of (firstn k s) sep) as [i'|] eqn:Ei;
          [|discriminate].
        injection H as <-.
        destruct (IH k i' Ei) as [Hs Hk].
        rewrite <- firstn_cons, HasPrefix_firstn in E by lia.
        simpl. rewrite E, Hs. split; [reflexivity|lia].
Qed.

Lemma index_of_firstn_None (k : nat) (s sep : gostring) :
  strings.index_of s sep = None -> strings.index_of (firstn k s) sep = None.
Proof.
  intros H. destruct (strings.index_of (firstn k s) sep) as [i|] eqn:E;
    [|reflexivity].
  apply index_of_firstn in E as [E _]. congruence.
Qed.

Lemma Index_absent (s sep : gostring) :
  strings.index_of s sep = None -> strings.Index s sep = (-1)%Z.
Proof. unfold strings.Index. now intros ->. Qed.

Lemma Index_present (s sep : gostring) (i : nat) :
  strings.index_of s sep = Some i -> strings.Index s sep = Z.of_nat i.
Proof. unfold strings.Index. now intros ->. Qed.

Lemma skipn_firstn_swap {A : Type} (n m : nat) (l : list A) :
  skipn n (firstn m l) = firstn (m - n) (skipn n l).
Proof.
  revert m l. induction n as [|n IH]; intros m l.
  - now rewrite Nat.sub_0_r.
  - destruct m as [|m]; [reflexivity|].
    destruct l as [|x l]; [simpl; now rewrite firstn_nil|].
    simpl. apply IH.
Qed.

(** ** The header block parser *)

Lemma parseFrontMatter_open (w : World) (p : Page) (file : gostring) :
  file_bytes w (Filepath p) = inl file ->
  parseFrontMatter w p = frontMatter_of w p file.
Proof. unfold parseFrontMatter, frontMatter_of. now intros ->. Qed.

Lemma Read_prefix (size : nat) (file : gostring) :
  0 < size -> file <> [] -> Read size file = inl (firstn size file).
Proof.
  intros Hs Hf. unfold Read.
  destruct file as [|c file]; [contradiction|].
  destruct (Nat.min size (length (c :: file)) =? 0) eqn:E.
  - apply Nat.eqb_eq in E. simpl length in E. lia.
  - now rewrite firstn_min_length.
Qed.

(** A file that opens a header block and whose first 1024 bytes hold no
    second delimiter is rejected. *)
Lemma frontMatter_of_unclosed (w : World) (p : Page) (file : gostring) :
  strings.HasPrefix file frontMatter = true ->
  strings.index_of (firstn 1021 (skipn 3 file)) frontMatter = None ->
  frontMatter_of w p file = (p, Some (missing_closing (Filepath p))).
Proof.
  intros Hpre Hidx. unfold frontMatter_of.
  rewrite Read_prefix.
  - rewrite HasPrefix_firstn by (unfold frontMatter; simpl; lia).
    rewrite Hpre. cbv beta iota delta [negb].
    rewrite (skipn_firstn_swap 3 1024 file).
    change (1024 - 3) with 1021.
    now rewrite (Index_absent _ _ Hidx).
  - lia.
  - intros ->. discriminate Hpre.
Qed.

Lemma Read_same_prefix (f1 f2 : gostring) :
  firstn 1024 f1 = firstn 1024 f2 -> Read 1024 f1 = Read 1024 f2.
Proof.
  intros H. destruct f1 as [|c1 f1], f2 as [|c2 f2].
  - reflexivity.
  - discriminate H.
  - discriminate H.
  - rewrite !Read_prefix by (lia || discriminate). now rewrite H.
Qed.

(** C10. [parseFrontMatter] decides on the first 1024 bytes of the file,
    the result of its one [Read]: files that agree on them are treated
    alike.  A file that starts with "+++" and whose first closing "+++"
    starts at byte 1024 or later is rejected with the "missing closing
    front-matter identifier" error, although the file has a closing
    delimiter. *)
Theorem parseFrontMatter_closing_beyond_prefix :
  forall (w : World) (p : Page) (file : gostring) (pos : nat),
    file_bytes w (Filepath p) = inl file ->
    strings.HasPrefix file frontMatter = true ->
    strings.index_of (skipn 3 file) frontMatter = Some pos ->
    1024 <= 3 + pos ->
    parseFrontMatter w p = (p, Some (missing_closing (Filepath p)))
    /\ (forall file' : gostring,
          firstn 1024 file' = firstn 1024 file ->
          frontMatter_of w p file' = frontMatter_of w p file).
Proof.
  intros w p file pos Hfile Hpre Hidx Hpos. split.
  - rewrite (parseFrontMatter_open w p file Hfile).
    apply frontMatter_of_unclosed; [assumption|].
    destruct (strings.index_of (firstn 1021 (skipn 3 file)) frontMatter)
      as [i|] eqn:E; [|reflexivity].
    apply index_of_firstn in E as [E L].
    rewrite Hidx in E. injection E as <-.
    change (length frontMatter) with 3 in L. lia.
  - intros file' H. unfold frontMatter_of.
    now rewrite (Read_same_prefix file' file H).
Qed.

Lemma parseFrontMatter_closing_beyond_prefix_witness :
  parseFrontMatter long_header_world (page_at (str "content/long.md"))
  = (page_at (str "content/long.md"),
     Some (missing_closing (str "content/long.md")))
  /\ (forall file' : gostring,
        firstn 1024 file' = firstn 1024 long_header_file ->
        frontMatter_of long_header_world (page_at (str "content/long.md")) file'
        = frontMatter_of long_header_world (page_at (str "content/long.md"))
                         long_header_file).
Proof.
  apply (parseFrontMatter_closing_beyond_prefix
           long_header_world (page_at (str "content/long.md"))
           long_header_file 1021).
  - reflexivity.
  - reflexivity.
  - vm_compute. reflexivity.
  - lia.
Defined.

(** A closing delimiter that only straddles byte 1024 is not found
    either. *)
Lemma parseFrontMatter_closing_across_prefix :
  forall (w : World) (p : Page) (file : gostring) (pos : nat),
    file_bytes w (Filepath p) = inl file ->
    strings.HasPrefix file frontMatter = true ->
    strings.index_of (skipn 3 file) frontMatter = Some pos ->
    1024 < 3 + pos + 3 ->
    parseFrontMatter w p = (p, Some (missing_closing (Filepath p))).
Proof.
  intros w p file pos Hfile Hpre Hidx Hpos.
  rewrite (parseFrontMatter_open w p file Hfile).
  apply frontMatter_of_unclosed; [assumption|].
  destruct (strings.index_of (firstn 1021 (skipn 3 file)) frontMatter)
    as [i|] eqn:E; [|reflexivity].
  apply index_of_firstn in E as [E L].
  rewrite Hidx in E. injection E as <-.
  change (length frontMatter) with 3 in L. lia.
Qed.

(** ** The content renderer *)

Lemma skipFrontMatter_suffix (file : gostring) :
  exists k : nat, skipFrontMatter file = skipn k file.
Proof.
  unfold skipFrontMatter.
  destruct (6 <? length file).
  - destruct (strings.Index (skipn 3 file) frontMatter >? -1)%Z.
    + eexists. reflexivity.
    + now exists 0.
  - now exists 0.
Qed.

(** Without "+++" from byte 3 on, nothing is cut. *)
Lemma skipFrontMatter_no_delimiter (file : gostring) :
  strings.index_of (skipn 3 file) frontMatter = None ->
  skipFrontMatter file = file.
Proof.
  intros H. unfold skipFrontMatter.
  rewrite (Index_absent _ _ H). now destruct (6 <? length file).
Qed.

(** With a second "+++" at offset [pos] after byte 3 of a file longer than
    six bytes, the file is cut after it. *)
Lemma skipFrontMatter_delimiter (file : gostring) (pos : nat) :
  6 < length file ->
  strings.index_of (skipn 3 file) frontMatter = Some pos ->
  skipFrontMatter file = skipn (3 + pos + 3) file.
Proof.
  intros L H. unfold skipFrontMatter.
  apply Nat.ltb_lt in L. rewrite L, (Index_present _ _ _ H).
  replace (Z.of_nat pos >? -1)%Z with true by (symmetry; apply Z.gtb_lt; lia).
  f_equal. lia.
Qed.

(** For a source file whose path ends in ".html", [ParseContent] returns,
    without error and whatever the Markdown converter is, the bytes left by
    its skip-front-matter step: a suffix of the file, the bytes after the
    closing delimiter when the file (of more than six bytes) starts with a
    header block. *)
Lemma ParseContent_html_skips_converter :
  forall (w : World) (p : Page) (file : gostring),
    file_bytes w (Filepath p) = inl file ->
    strings.HasSuffix (Filepath p) (str ".html") = true ->
    ParseContent w p = (skipFrontMatter file, None)
    /\ (forall w' : World,
          file_bytes w' (Filepath p) = inl file ->
          ParseContent w' p = ParseContent w p)
    /\ (exists k : nat, fst (ParseContent w p) = skipn k file)
    /\ (forall pos : nat,
          strings.HasPrefix file frontMatter = true ->
          strings.index_of (skipn 3 file) frontMatter = Some pos ->
          6 < length file ->
          fst (ParseContent w p) = skipn (3 + pos + 3) file).
Proof.
  intros w p file Hfile Hext.
  assert (E : forall w', file_bytes w' (Filepath p) = inl file ->
                         ParseContent w' p = (skipFrontMatter file, None)).
  { intros w' H. unfold ParseContent. now rewrite H, Hext. }
  repeat split.
  - now apply E.
  - intros w' H. now rewrite (E w' H), (E w Hfile).
  - rewrite (E w Hfile). apply skipFrontMatter_suffix.
  - intros pos _ Hidx L. rewrite (E w Hfile).
    now apply skipFrontMatter_delimiter.
Qed.

(** C9. Two files with a path that ends in ".html" are not returned as
    their bytes without the header block.  content/notes.html has no header
    block, and [ParseContent] returns only the bytes after the "+++" of its
    text (the defect of C2).  content/blank.html is "++++++", an empty
    header block with nothing after it: [parseFrontMatter] finds the
    closing delimiter and hands the empty header to the decoder, and
    [ParseContent], which cuts only files of more than six bytes, returns
    the six bytes of the header block. *)
Theorem ParseContent_html_not_the_body :
  (strings.HasPrefix notes_file frontMatter = false
   /\ ParseContent notes_world (page_at (str "content/notes.html"))
      = (str " by readers</p>", None)
   /\ str " by readers</p>" <> notes_file)
  /\ (blank_file = frontMatter ++ [] ++ frontMatter ++ []
      /\ parseFrontMatter blank_world (page_at (str "content/blank.html"))
         = toml_Unmarshal blank_world [] (page_at (str "content/blank.html"))
      /\ ParseContent blank_world (page_at (str "content/blank.html"))
         = (str "++++++", None)
      /\ str "++++++" <> []).
Proof.
  split.
  - repeat split; try reflexivity. discriminate.
  - repeat split; try reflexivity. discriminate.
Qed.

(** C2. The file content/notes.html does not begin with "+++"; its text has
    "+++" at byte 9.  [ParseContent] returns only the bytes after that
    occurrence, not the entire file: its skip-front-matter step does not
    test the start of the file, as [parseFrontMatter] does. *)
Theorem ParseContent_cuts_file_without_header :
  strings.HasPrefix notes_file frontMatter = false
  /\ fst (frontMatter_of notes_world (page_at (str "content/notes.html"))
                         notes_file)
     = page_at (str "content/notes.html")
  /\ ParseContent notes_world (page_at (str "content/notes.html"))
     = (str " by readers</p>", None)
  /\ str " by readers</p>" <> notes_file.
Proof.
  repeat split; try reflexivity. discriminate.
Qed.

(** ** filterPosts *)

Lemma store_length {A : Type} (arr : list A) (i : nat) (v : A) :
  length (store arr i v) = length arr.
Proof.
  revert i. induction arr as [|x arr IH]; intros [|i]; simpl; auto.
Qed.

Lemma firstn_store_snoc {A : Type} (arr : list A) (n : nat) (v : A) :
  n < length arr -> firstn (S n) (store arr n v) = firstn n arr ++ [v].
Proof.
  revert n. induction arr as [|x arr IH]; intros n L; simpl in L; [lia|].
  destruct n as [|n]; [reflexivity|].
  cbn [store firstn app]. f_equal. apply IH. lia.
Qed.

Lemma skipn_store {A : Type} (arr : list A) (n k : nat) (v : A) :
  n < k -> skipn k (store arr n v) = skipn k arr.
Proof.
  revert n k. induction arr as [|x arr IH]; intros n k L.
  - now destruct n.
  - destruct k as [|k]; [lia|].
    destruct n as [|n]; [reflexivity|].
    cbn [store skipn]. apply IH. lia.
Qed.

Lemma nth_error_hd_skipn {A : Type} (l : list A) (i : nat) :
  nth_error l i = hd_error (skipn i l).
Proof.
  revert l. induction i as [|i IH]; intros [|x l]; simpl; auto.
Qed.

Lemma firstn_succ_snoc {A : Type} (l : list A) (i : nat) (v : A) :
  nth_error l i = Some v -> firstn (S i) l = firstn i l ++ [v].
Proof.
  revert l. induction i as [|i IH]; intros [|x l] H; simpl in H;
    try discriminate.
  - now injection H as ->.
  - cbn [firstn app]. f_equal. now apply IH.
Qed.

(** The loop of [filterPosts] from index [i] on: the first [n] slots of the
    copy hold the posts kept so far, the slots from [i] on are still those
    of the argument. *)
Lemma filterPosts_loop (tag : gostring) (posts : list Page) :
  forall (k i n : nat) (arr : list Page),
    i + k = length posts ->
    length arr = length posts ->
    n <= i ->
    firstn n arr
    = filter (fun p => bytes_eqb (Category p) tag) (firstn i posts) ->
    skipn i arr = skipn i posts ->
    let '(arr', n') := fold_left (filterPosts_step tag) (seq i k) (arr, n) in
    firstn n' arr' = filter (fun p => bytes_eqb (Category p) tag) posts.
Proof.
  induction k as [|k IH]; intros i n arr Hik Hlen Hn Hkept Hrest.
  - simpl. rewrite Hkept. f_equal. apply firstn_all2. lia.
  - cbn [seq fold_left].
    assert (Hval : exists val, nth_error posts i = Some val).
    { destruct (nth_error posts i) as [val|] eqn:E; [now exists val|].
      apply nth_error_None in E. lia. }
    destruct Hval as [val Hval].
    assert (Harr : nth_error arr i = Some val).
    { now rewrite nth_error_hd_skipn, Hrest, <- nth_error_hd_skipn. }
    unfold filterPosts_step at 2. rewrite Harr.
    assert (Hnext : forall a : list Page,
              skipn i a = skipn i posts -> skipn (S i) a = skipn (S i) posts).
    { intros a H. rewrite <- (Nat.add_1_l i), <- !skipn_skipn. now rewrite H. }
    destruct (bytes_eqb (Category val) tag) eqn:Etag.
    + apply IH.
      * lia.
      * now rewrite store_length.
      * lia.
      * rewrite firstn_store_snoc by lia.
        rewrite (firstn_succ_snoc posts i val Hval), filter_app, Hkept.
        simpl. now rewrite Etag.
      * destruct (Nat.eq_dec n i) as [->|Hne].
        -- rewrite skipn_store by lia. now apply Hnext.
        -- rewrite skipn_store by lia. now apply Hnext.
    + apply IH; try assumption; try lia.
      * rewrite (firstn_succ_snoc posts i val Hval), filter_app, Hkept.
        simpl. rewrite Etag. now rewrite app_nil_r.
      * now apply Hnext.
Qed.

(** C7. With the tag "page", [filterPosts] returns its argument; with any
    other tag it returns the posts whose [Category] is the tag, in the order
    of the argument. *)
Theorem filterPosts_spec :
  forall posts : list Page,
    filterPosts posts (str "page") = posts
    /\ (forall tag : gostring,
          tag <> str "page" ->
          filterPosts posts tag
          = filter (fun p => bytes_eqb (Category p) tag) posts).
Proof.
  intros posts. split; [reflexivity|].
  intros tag Htag. unfold filterPosts.
  apply bytes_eqb_neq in Htag. rewrite Htag.
  pose proof (filterPosts_loop tag posts (length posts) 0 0 posts
                eq_refl eq_refl (Nat.le_refl 0) eq_refl eq_refl) as H.
  now destruct (fold_left (filterPosts_step tag) (seq 0 (length posts))
                          (posts, 0)) as [arr n].
Qed.

Lemma filterPosts_spec_witness :
  filterPosts three_pages (str "blog")
  = filter (fun p => bytes_eqb (Category p) (str "blog")) three_pages.
Proof.
  apply (proj2 (filterPosts_spec three_pages) (str "blog")).
  discriminate.
Defined.

(** ** The feed *)

Lemma feed_step_entry (w : World) (items : list Item) (log : list logline)
  (p : Page) :
  feed_step w (items, log) p
  = (items ++ feed_entry w p, log ++ feed_warning w p).
Proof.
  unfold feed_step, feed_entry, feed_warning.
  destruct (ParseContent w p) as [content [err|]]; now rewrite app_nil_r.
Qed.

Lemma feed_loop (w : World) (l : list Page) :
  forall (items : list Item) (log : list logline),
    fold_left (feed_step w) l (items, log)
    = (items ++ flat_map (feed_entry w) l, log ++ flat_map (feed_warning w) l).
Proof.
  induction l as [|p l IH]; intros items log; cbn [fold_left flat_map].
  - now rewrite !app_nil_r.
  - now rewrite feed_step_entry, IH, <- !app_assoc.
Qed.

Lemma feed_prefix (posts : list Page) :
  firstn (if 10 <? length posts then 10 else length posts) posts
  = firstn 10 posts.
Proof.
  destruct (10 <? length posts) eqn:E; [reflexivity|].
  apply Nat.ltb_ge in E. now rewrite firstn_all, firstn_all2.
Qed.

Lemma createRSSFeed_unfold (w : World) (s : Site) :
  createRSSFeed w s
  = ({| ChannelTitle := SiteTitle s; ChannelLink := SiteUrl s;
        Generator := str "Gozer";
        Items := flat_map (feed_entry w) (firstn 10 (posts s)) |},
     flat_map (feed_warning w) (firstn 10 (posts s)),
     write_output w (str "build/feed.xml")).
Proof.
  unfold createRSSFeed. now rewrite feed_prefix, feed_loop.
Qed.

Lemma flat_map_length_le {A B : Type} (f : A -> list B) (l : list A) :
  (forall a, length (f a) <= 1) -> length (flat_map f l) <= length l.
Proof.
  intros H. induction l as [|a l IH]; simpl; [lia|].
  rewrite length_app. specialize (H a). lia.
Qed.

Lemma StronglySorted_app_inv {A : Type} (R : A -> A -> Prop) (a b : list A) :
  StronglySorted R (a ++ b) ->
  forall x y : A, In x a -> In y b -> R x y.
Proof.
  induction a as [|z a IH]; intros H x y Hx Hy; [contradiction|].
  simpl in H. apply StronglySorted_inv in H as [Hs Hall].
  destruct Hx as [<-|Hx].
  - rewrite Forall_forall in Hall. apply Hall.
    apply in_or_app. now right.
  - now apply IH.
Qed.

(** In a sequence of descending dates, the first 10 posts are the 10 most
    recent: none of them is older than a post left out. *)
Lemma feed_takes_most_recent (posts : list Page) :
  StronglySorted (fun p q => (DatePublished p >= DatePublished q)%Z) posts ->
  forall p q : Page,
    In p (firstn 10 posts) -> In q (skipn 10 posts) ->
    (DatePublished p >= DatePublished q)%Z.
Proof.
  intros H. rewrite <- (firstn_skipn 10 posts) in H.
  exact (StronglySorted_app_inv _ _ _ H).
Qed.

(** C8. The feed has at most 10 items.  They come, in order, from the
    first 10 posts: one item for each of them that [ParseContent] renders,
    with the rendered text as its description, and a logged warning and no
    item for each that it does not.  The error of [createRSSFeed] is that
    of writing build/feed.xml alone. *)
Theorem createRSSFeed_spec :
  forall (w : World) (s : Site),
    let feed := fst (fst (createRSSFeed w s)) in
    let log := snd (fst (createRSSFeed w s)) in
    let err := snd (createRSSFeed w s) in
    length (Items feed) <= 10
    /\ Items feed = flat_map (feed_entry w) (firstn 10 (posts s))
    /\ log = flat_map (feed_warning w) (firstn 10 (posts s))
    /\ err = write_output w (str "build/feed.xml")
    /\ (forall it : Item,
          In it (Items feed) ->
          exists p : Page,
            In p (firstn 10 (posts s))
            /\ ParseContent w p = (Description it, None)
            /\ it = item_of p (Description it))
    /\ (forall (p : Page) (e : error),
          In p (firstn 10 (posts s)) ->
          snd (ParseContent w p) = Some e ->
          feed_entry w p = []
          /\ In (Warn (str "error parsing content of %s: %s") [Filepath p] e)
                log).
Proof.
  intros w s. cbv zeta. rewrite createRSSFeed_unfold. cbn [fst snd Items].
  repeat split.
  - etransitivity.
    + apply flat_map_length_le. intros p. unfold feed_entry.
      destruct (ParseContent w p) as [c [e|]]; simpl; lia.
    + rewrite length_firstn. lia.
  - intros it Hin. apply in_flat_map in Hin as [p [Hp Hit]].
    exists p. split; [assumption|].
    unfold feed_entry in Hit.
    destruct (ParseContent w p) as [c [e|]]; simpl in Hit; [contradiction|].
    destruct Hit as [<-|[]]. now split.
  - unfold feed_entry. destruct (ParseContent w p) as [c [e'|]];
      [reflexivity|discriminate].
  - apply in_flat_map. exists p. split; [assumption|].
    unfold feed_warning. destruct (ParseContent w p) as [c [e'|]];
      simpl in *; [|discriminate].
    left. congruence.
Qed.

(** ** The walk *)

Lemma run_calls_app {St : Type} (fn : WalkDirFunc St)
  (a b : list (gostring * option bool * option error)) (s : St) :
  run_calls fn (a ++ b) s
  = ('(s1, err) <- run_calls fn a s ;;
     match err with
     | Some e => Returns (s1, Some e)
     | None => run_calls fn b s1
     end).
Proof.
  revert s. induction a as [|[[path d] e] a IH]; intros s; simpl.
  - reflexivity.
  - destruct (fn path d e s) as [[s1 [e1|]]|msg]; simpl; auto.
Qed.

(** [walkDir] makes the calls of [walk_calls], up to the first error. *)
Lemma walkDir_calls {St : Type} (fn : WalkDirFunc St) (t : tree) :
  forall (path : gostring) (s : St),
    walkDir fn path t s = run_calls fn (walk_calls path t) s.
Proof.
  revert t. fix IH 1. intros [|readErr entries] path s.
  - simpl. destruct (fn path (Some false) None s) as [[s1 [e1|]]|msg];
      reflexivity.
  - cbn [walkDir walk_calls run_calls].
    destruct (fn path (Some true) None s) as [[s1 [e1|]]|msg]; simpl;
      [reflexivity| |reflexivity].
    rewrite run_calls_app.
    assert (Hrange : forall s2 : St,
      (fix range (dirs : list (gostring * tree)) (s : St) {struct dirs}
         : run (St * option error) :=
         match dirs with
         | [] => Returns (s, None)
         | (name, d1) :: dirs' =>
             '(s, err) <- walkDir fn (path ++ str "/" ++ name) d1 s ;;
             match err with
             | Some e => Returns (s, Some e)
             | None => range dirs' s
             end
         end) entries s2
      = run_calls fn
          ((fix range (dirs : list (gostring * tree)) :=
              match dirs with
              | [] => []
              | (name, d1) :: dirs' =>
                  walk_calls (path ++ str "/" ++ name) d1 ++ range dirs'
              end) entries) s2).
    { clear s s1. induction entries as [|[name d1] dirs IHd]; intros s2.
      - reflexivity.
      - rewrite run_calls_app, <- IH.
        destruct (walkDir fn (path ++ str "/" ++ name) d1 s2)
          as [[s3 [e3|]]|msg]; simpl; auto. }
    destruct readErr as [e|]; simpl.
    + destruct (fn path (Some true) (Some e) s1) as [[s2 [e2|]]|msg]; simpl;
        [reflexivity| |reflexivity].
      apply Hrange.
    + apply Hrange.
Qed.


Lemma readContent_calls (w : World) (s : Site) (dir : gostring) (t : tree) :
  walk_root w dir = inl t ->
  readContent w s dir
  = ('(s1, err) <- run_calls (readContent_visit w) (walk_calls dir t) s ;;
     Returns (set_posts s1 (sort_Slice w byDate (posts s1)), err)).
Proof.
  intros H. unfold readContent, WalkDir. now rewrite H, walkDir_calls.
Qed.

(** Every call of a walk is for a path below its root. *)
Lemma walk_calls_below (t : tree) :
  forall (path : gostring) (c : gostring * option bool * option error),
    In c (walk_calls path t) ->
    exists rest : gostring, fst (fst c) = path ++ rest.
Proof.
  revert t. fix IH 1. intros [|readErr entries] path c Hin.
  - destruct Hin as [<-|[]]. exists []. now rewrite app_nil_r.
  - cbn [walk_calls] in Hin. destruct Hin as [<-|Hin].
    { exists []. now rewrite app_nil_r. }
    apply in_app_or in Hin as [Hin|Hin].
    { destruct readErr; [|contradiction].
      destruct Hin as [<-|[]]. exists []. now rewrite app_nil_r. }
    induction entries as [|[name d1] dirs IHd]; [contradiction|].
    apply in_app_or in Hin as [Hin|Hin].
    + apply IH in Hin as [rest Hrest].
      exists (str "/" ++ name ++ rest).
      rewrite Hrest. now rewrite <- !app_assoc.
    + now apply IHd.
Qed.

(** A file found while walking a directory has a slash in its path. *)
Lemma walk_calls_file_below (readErr : option error)
  (entries : list (gostring * tree)) (path file : gostring)
  (e : option error) :
  In (file, Some false, e) (walk_calls path (Dir readErr entries)) ->
  exists rest : gostring, file = path ++ "/"%char :: rest.
Proof.
  cbn [walk_calls]. intros [Hin|Hin]; [discriminate|].
  apply in_app_or in Hin as [Hin|Hin].
  { destruct readErr; [|contradiction]. destruct Hin as [Hin|[]].
    discriminate. }
  induction entries as [|[name d1] dirs IHd]; [contradiction|].
  apply in_app_or in Hin as [Hin|Hin]; [|now apply IHd].
  apply walk_calls_below in Hin as [rest Hrest]. simpl in Hrest.
  exists (name ++ rest). rewrite Hrest. now rewrite <- !app_assoc.
Qed.

Lemma Split_not_empty (s : gostring) (sep : ascii) :
  strings.Split s sep <> [].
Proof.
  destruct s as [|c s]; simpl; [discriminate|].
  destruct (Ascii.eqb c sep); [discriminate|].
  destruct (strings.Split s sep); discriminate.
Qed.

Lemma Split_no_sep (s : gostring) (sep : ascii) :
  ~ In sep s -> strings.Split s sep = [s].
Proof.
  induction s as [|c s IH]; intros H; simpl; [reflexivity|].
  destruct (Ascii.eqb c sep) eqn:E.
  - apply Ascii.eqb_eq in E. subst c. exfalso. apply H. now left.
  - rewrite IH; [reflexivity|]. intros Hin. apply H. now right.
Qed.

Lemma Split_at_sep (a b : gostring) (sep : ascii) :
  ~ In sep a -> strings.Split (a ++ sep :: b) sep = a :: strings.Split b sep.
Proof.
  induction a as [|c a IH]; intros H; simpl.
  - now rewrite Ascii.eqb_refl.
  - destruct (Ascii.eqb c sep) eqn:E.
    + apply Ascii.eqb_eq in E. subst c. exfalso. apply H. now left.
    + rewrite IH; [reflexivity|]. intros Hin. apply H. now right.
Qed.

(** With a slash in [file], [strings.Split(file, "/")[1]] exists. *)
Lemma category_of_returns (a b : gostring) :
  exists category : gostring,
    category_of (a ++ "/"%char :: b) = Returns category.
Proof.
  unfold category_of.
  assert (H : exists x y l, strings.Split (a ++ "/"%char :: b) "/"%char
                            = x :: y :: l).
  { induction a as [|c a IH]; simpl.
    - pose proof (Split_not_empty b "/"%char) as Hb.
      destruct (strings.Split b "/"%char) as [|y l]; [contradiction|].
      now exists [], y, l.
    - destruct IH as (x & y & l & ->).
      destruct (Ascii.eqb c "/"%char); eauto. }
  destruct H as (x & y & l & ->). simpl. eauto.
Qed.

(** ** Registration *)

(** C1, the page itself: a file that opens a header block and holds no
    second delimiter is not registered; the error names it. *)
Lemma AddPageFromFile_unclosed (w : World) (s : Site) (a b : gostring)
  (modTime : time.Time) (content : gostring) :
  os_Stat w (a ++ "/"%char :: b) = inl modTime ->
  file_bytes w (a ++ "/"%char :: b) = inl content ->
  strings.HasPrefix content frontMatter = true ->
  strings.index_of (skipn 3 content) frontMatter = None ->
  AddPageFromFile w s (a ++ "/"%char :: b)
  = Returns (s, Some (missing_closing (a ++ "/"%char :: b))).
Proof.
  intros Hstat Hfile Hpre Hidx. unfold AddPageFromFile. rewrite Hstat.
  destruct (parseFilename (a ++ "/"%char :: b) (RootDir s)) as [urlPath date].
  destruct (category_of_returns a b) as [category ->]. cbn [bind].
  rewrite parseFrontMatter_open with (file := content) by exact Hfile.
  rewrite frontMatter_of_unclosed; [reflexivity|assumption|].
  now apply index_of_firstn_None.
Qed.

Lemma run_calls_stops {St : Type} (fn : WalkDirFunc St)
  (pre post : list (gostring * option bool * option error))
  (path : gostring) (d : option bool) (e : option error)
  (s s1 s2 : St) (err : error) :
  run_calls fn pre s = Returns (s1, None) ->
  fn path d e s1 = Returns (s2, Some err) ->
  run_calls fn (pre ++ (path, d, e) :: post) s = Returns (s2, Some err).
Proof.
  intros Hpre Hfn. rewrite run_calls_app, Hpre. simpl. now rewrite Hfn.
Qed.

(** C1. A walked file that begins with "+++" and has no closing "+++" is
    not registered: [AddPageFromFile] returns an error that names the file.
    The walk ends there.  The pages registered before it in walk order
    stay; no later file is visited; [readContent] sorts the posts found so
    far and returns the error, and [buildSite] ends in [log.Fatal]. *)
Theorem unclosed_header_stops_the_walk :
  forall (w : World) (s s1 : Site) (dir : gostring)
         (readErr : option error) (entries : list (gostring * tree))
         (pre post : list (gostring * option bool * option error))
         (file : gostring) (modTime : time.Time) (content : gostring),
    walk_root w dir = inl (Dir readErr entries) ->
    walk_calls dir (Dir readErr entries)
    = pre ++ (file, Some false, None) :: post ->
    run_calls (readContent_visit w) pre s = Returns (s1, None) ->
    os_Stat w file = inl modTime ->
    file_bytes w file = inl content ->
    strings.HasPrefix content frontMatter = true ->
    strings.index_of (skipn 3 content) frontMatter = None ->
    AddPageFromFile w s1 file
    = Returns (s1, Some (Errorf (str "missing closing front-matter identifier in "
                                 ++ file)))
    /\ readContent w s dir
       = Returns (set_posts s1 (sort_Slice w byDate (posts s1)),
                  Some (missing_closing file))
    /\ (forall (rootPath configFile : gostring) (templates : list gostring),
          ParseGlob w (filepath_Join w rootPath (str "templates/*.html"))
          = inl templates ->
          parseConfig w {| pages := []; posts := []; SiteTitle := [];
                           SiteUrl := []; RootDir := rootPath |}
                      (filepath_Join w rootPath configFile)
          = (s, None) ->
          dir = filepath_Join w rootPath (str "content") ->
          buildSite w rootPath configFile
          = Fatal (str "Error reading content/: %s") (missing_closing file)).
Proof.
  intros w s s1 dir readErr entries pre post file modTime content
         Hroot Hcalls Hpre Hstat Hfile Hopen Hclose.
  assert (Hin : In (file, Some false, @None error)
                   (walk_calls dir (Dir readErr entries))).
  { rewrite Hcalls. apply in_or_app. right. now left. }
  apply walk_calls_file_below in Hin as [rest ->].
  assert (Hadd : AddPageFromFile w s1 (dir ++ "/"%char :: rest)
                 = Returns (s1, Some (missing_closing (dir ++ "/"%char :: rest)))).
  { now apply AddPageFromFile_unclosed with (modTime := modTime)
                                            (content := content). }
  assert (Hread : readContent w s dir
                  = Returns (set_posts s1 (sort_Slice w byDate (posts s1)),
                             Some (missing_closing (dir ++ "/"%char :: rest)))).
  { rewrite (readContent_calls w s dir _ Hroot), Hcalls.
    rewrite (run_calls_stops (readContent_visit w) pre post
               (dir ++ "/"%char :: rest) (Some false) None s s1 s1
               (missing_closing (dir ++ "/"%char :: rest)) Hpre Hadd).
    reflexivity. }
  split; [exact Hadd|]. split; [exact Hread|].
  intros rootPath configFile templates Htpl Hcfg Hdir.
  unfold buildSite. rewrite Htpl, Hcfg, <- Hdir, Hread. reflexivity.
Qed.

Lemma unclosed_header_stops_the_walk_witness :
  readContent unclosed_world (empty_site []) (str "content")
  = Returns (empty_site [], Some (missing_closing (str "content/a.md")))
  /\ buildSite unclosed_world [] (str "config.toml")
     = Fatal (str "Error reading content/: %s")
             (missing_closing (str "content/a.md")).
Proof.
  destruct (unclosed_header_stops_the_walk
              unclosed_world (empty_site []) (empty_site []) (str "content")
              None [(str "a.md", File); (str "b.md", File)]
              [(str "content", Some true, None)]
              [(str "content/b.md", Some false, None)]
              (str "content/a.md") (time.Date 2024 1 1)
              (str "+++" ++ ["010"%char] ++ str "title = 'A'" ++ ["010"%char]
                   ++ str "text")
              eq_refl eq_refl eq_refl eq_refl eq_refl eq_refl eq_refl)
    as (_ & Hread & Hbuild).
  split.
  - exact Hread.
  - exact (Hbuild [] (str "config.toml") [str "default.html"]
                  eq_refl eq_refl eq_refl).
Defined.

(** C1 as worded fails on the site of content/a.md (unclosed header) and
    content/b.md (no header): b.md is not registered, and the build ends in
    [log.Fatal]. *)
Lemma unclosed_header_not_isolated :
  ~ siblings_registered unclosed_world (empty_site []) (str "content")
  /\ ~ build_completes unclosed_world [] (str "config.toml").
Proof.
  split.
  - intros H.
    assert (Hin : In (str "content/b.md")
                     (map Filepath (pages (empty_site [])))).
    { apply (H unclosed_tree (empty_site [])
               (Some (missing_closing (str "content/a.md")))
               (str "content/b.md")).
      - reflexivity.
      - reflexivity.
      - right. right. now left.
      - eexists. vm_compute. reflexivity. }
    destruct Hin.
  - intros (site & feed & log & H). discriminate H.
Qed.

(** ** The order of the posts *)

Lemma AddPageFromFile_posts (w : World) (s s' : Site) (file : gostring)
  (err : option error) :
  posts s = filter dated (pages s) ->
  AddPageFromFile w s file = Returns (s', err) ->
  posts s' = filter dated (pages s').
Proof.
  intros Hinv. unfold AddPageFromFile.
  destruct (os_Stat w file) as [modTime|e].
  - destruct (parseFilename file (RootDir s)) as [urlPath date].
    destruct (category_of file) as [category|msg]; cbn [bind];
      [|discriminate].
    match goal with
    | |- context [parseFrontMatter w ?p] =>
        destruct (parseFrontMatter w p) as [p' [e|]]
    end.
    + intros H. injection H as <- _. exact Hinv.
    + intros H. injection H as <- _. cbn [pages posts].
      rewrite filter_app. cbn [filter].
      destruct (dated p'); rewrite Hinv; [reflexivity|].
      now rewrite app_nil_r.
  - intros H. injection H as <- _. exact Hinv.
Qed.

Lemma run_calls_posts (w : World)
  (calls : list (gostring * option bool * option error)) :
  forall (s s' : Site) (err : option error),
    posts s = filter dated (pages s) ->
    run_calls (readContent_visit w) calls s = Returns (s', err) ->
    posts s' = filter dated (pages s').
Proof.
  induction calls as [|[[path d] e] calls IH]; intros s s' err Hinv H.
  - simpl in H. injection H as <- _. exact Hinv.
  - cbn [run_calls] in H.
    destruct (readContent_visit w path d e s) as [[s1 [e1|]]|msg] eqn:E;
      cbn [bind] in H; [| |discriminate].
    + injection H as <- _. unfold readContent_visit in E.
      destruct d as [[|]|]; [| |discriminate].
      * injection E as <- _. exact Hinv.
      * exact (AddPageFromFile_posts w s s1 path _ Hinv E).
    + apply (IH s1 s' err); [|exact H].
      unfold readContent_visit in E.
      destruct d as [[|]|]; [| |discriminate].
      * injection E as <-. exact Hinv.
      * exact (AddPageFromFile_posts w s s1 path _ Hinv E).
Qed.

(** What [readContent] returns: the site as the walk left it, its posts
    sorted. *)
Lemma readContent_returns (w : World) (s s' : Site) (dir : gostring)
  (err : option error) :
  posts s = filter dated (pages s) ->
  readContent w s dir = Returns (s', err) ->
  exists s1 : Site,
    s' = set_posts s1 (sort_Slice w byDate (posts s1))
    /\ posts s1 = filter dated (pages s1).
Proof.
  intros Hinv. unfold readContent, WalkDir.
  destruct (walk_root w dir) as [t|e].
  - rewrite walkDir_calls.
    destruct (run_calls (readContent_visit w) (walk_calls dir t) s)
      as [[s1 err1]|msg] eqn:E; cbn [bind]; [|discriminate].
    intros H. injection H as <- _. exists s1. split; [reflexivity|].
    exact (run_calls_posts w _ s s1 err1 Hinv E).
  - discriminate.
Qed.

Lemma StronglySorted_adjacent {A : Type} (R : A -> A -> Prop) (l : list A) :
  StronglySorted R l ->
  forall (i : nat) (x y : A),
    nth_error l i = Some x -> nth_error l (S i) = Some y -> R x y.
Proof.
  induction 1 as [|a l Hsorted IH Hall]; intros i x y Hx Hy.
  - destruct i; discriminate.
  - destruct i as [|i].
    + simpl in Hx. injection Hx as <-. simpl in Hy.
      rewrite Forall_forall in Hall. apply Hall.
      destruct l; [discriminate|]. injection Hy as <-. now left.
    + exact (IH i x y Hx Hy).
Qed.

Lemma StronglySorted_impl {A : Type} (R R' : A -> A -> Prop) (l : list A) :
  (forall x y : A, R x y -> R' x y) ->
  StronglySorted R l -> StronglySorted R' l.
Proof.
  intros HR. induction 1 as [|a l Hs IH Hall]; constructor; [assumption|].
  apply Forall_impl with (2 := Hall). apply HR.
Qed.

Lemma byDate_false (p q : Page) :
  byDate q p = false <-> (DatePublished p >= DatePublished q)%Z.
Proof.
  unfold byDate, time.After. rewrite Z.gtb_ltb, Z.ltb_ge. lia.
Qed.

(** C4. When [sort.Slice] sorts for [byDate], as its contract says, the
    posts after [readContent] are the dated pages in an order of descending
    [DatePublished]: every post is at least as recent as the next one.
    Nothing is promised about the order of posts of one date. *)
Theorem readContent_posts_descending :
  forall (w : World) (s s' : Site) (dir : gostring) (err : option error),
    sorts_with byDate (sort_Slice w) ->
    posts s = filter dated (pages s) ->
    readContent w s dir = Returns (s', err) ->
    descending (posts s')
    /\ StronglySorted
         (fun p q => (DatePublished p >= DatePublished q)%Z) (posts s')
    /\ Permutation (filter dated (pages s')) (posts s').
Proof.
  intros w s s' dir err Hsort Hinv Hread.
  destruct (readContent_returns w s s' dir err Hinv Hread) as (s1 & -> & H1).
  cbn [set_posts posts pages]. rewrite <- H1.
  destruct (Hsort (posts s1)) as [Hperm Hsorted].
  assert (Hdesc : StronglySorted
                    (fun p q => (DatePublished p >= DatePublished q)%Z)
                    (sort_Slice w byDate (posts s1))).
  { apply StronglySorted_impl with (2 := Hsorted).
    intros p q. apply byDate_false. }
  split; [|split].
  - intros i p q Hp Hq.
    exact (StronglySorted_adjacent _ _ Hdesc i p q Hp Hq).
  - exact Hdesc.
  - exact Hperm.
Qed.

Lemma insert_by_perm {A : Type} (less : A -> A -> bool) (x : A) (l : list A) :
  Permutation (x :: l) (insert_by less x l).
Proof.
  induction l as [|y l IH]; simpl; [reflexivity|].
  destruct (less y x); [|reflexivity].
  rewrite perm_swap. now apply perm_skip.
Qed.

Lemma insertion_sort_perm {A : Type} (less : A -> A -> bool) (l : list A) :
  Permutation l (insertion_sort less l).
Proof.
  induction l as [|x l IH]; simpl; [reflexivity|].
  rewrite <- insert_by_perm. now apply perm_skip.
Qed.

Lemma insert_by_byDate_sorted (x : Page) (l : list Page) :
  StronglySorted (fun p q => byDate q p = false) l ->
  StronglySorted (fun p q => byDate q p = false) (insert_by byDate x l).
Proof.
  induction 1 as [|y l Hs IH Hall]; simpl.
  - constructor; constructor.
  - destruct (byDate y x) eqn:E.
    + constructor; [exact IH|].
      apply (Permutation_Forall (insert_by_perm byDate x l)).
      constructor; [|exact Hall].
      unfold byDate, time.After in *.
      rewrite Z.gtb_ltb in *. apply Z.ltb_lt in E. apply Z.ltb_ge. lia.
    + constructor; [now constructor|].
      constructor; [exact E|].
      apply Forall_impl with (2 := Hall). intros z Hz.
      unfold byDate, time.After in *.
      rewrite Z.gtb_ltb in *. apply Z.ltb_ge in E, Hz. apply Z.ltb_ge. lia.
Qed.

Lemma insertion_sort_sorts : sorts_with byDate insertion_sort.
Proof.
  intros l. split; [apply insertion_sort_perm|].
  induction l as [|x l IH]; simpl; [constructor|].
  now apply insert_by_byDate_sorted.
Qed.

Lemma readContent_posts_descending_witness :
  descending
    (posts (site_after (readContent thirteen_world_by_insertion (empty_site [])
                                    (str "content")) (empty_site []))).
Proof.
  apply (readContent_posts_descending
           thirteen_world_by_insertion (empty_site [])
           (site_after (readContent thirteen_world_by_insertion (empty_site [])
                                    (str "content")) (empty_site []))
           (str "content") None).
  - exact insertion_sort_sorts.
  - reflexivity.
  - vm_compute. reflexivity.
Defined.

(** The thirteen posts after [readContent], with [sort.Slice] as package
    sort has it: m, then g, c, d, e, f, a, h, i, j, k, l, b.  The sort
    returns within the iterations given to it. *)
Lemma thirteen_posts_order :
  (exists sorted : list Page,
     sort.pdqsort_func byDate sort.xorshift_Next
       (filter dated
          (pages (site_after (readContent thirteen_world (empty_site [])
                                          (str "content")) (empty_site []))))
       0 13 (sort.bits_Len 13)
     = Some sorted)
  /\ map UrlPath
      (posts (site_after (readContent thirteen_world (empty_site [])
                                      (str "content")) (empty_site [])))
  = map str ["m/"; "g/"; "c/"; "d/"; "e/"; "f/"; "a/"; "h/"; "i/"; "j/";
             "k/"; "l/"; "b/"]%string
  /\ map UrlPath
         (pages (site_after (readContent thirteen_world (empty_site [])
                                         (str "content")) (empty_site [])))
     = map str ["a/"; "b/"; "c/"; "d/"; "e/"; "f/"; "g/"; "h/"; "i/"; "j/";
                "k/"; "l/"; "m/"]%string.
Proof.
  split; [|split].
  - eexists. vm_compute. reflexivity.
  - vm_compute. reflexivity.
  - vm_compute. reflexivity.
Qed.

(** The generator of [breakPatterns_func] plays no part in it. *)
Lemma thirteen_posts_any_generator (Next : Z -> Z) :
  readContent (static_world thirteen_files thirteen_tree
                            (fun less => sort.Slice less Next))
              (empty_site []) (str "content")
  = readContent thirteen_world (empty_site []) (str "content").
Proof. vm_compute. reflexivity. Qed.

(** C4 as worded fails on twelve posts of 2023-01-01 and one of
    2023-01-02: after [readContent] the post g precedes the post a of the
    same date, which was found before it. *)
Lemma posts_order_not_stable :
  ~ posts_sorted_stably thirteen_world (empty_site []) (str "content").
Proof.
  intros H.
  destruct (H (site_after (readContent thirteen_world (empty_site [])
                                       (str "content")) (empty_site []))
              None) as [_ Hties].
  - vm_compute. reflexivity.
  - specialize (Hties (time.Date 2023 1 1)).
    vm_compute in Hties. discriminate Hties.
Qed.

(** ** The category of a page *)

(** The category is taken from the second slash-separated segment of the
    walked path, whatever the content root is. *)
Lemma category_of_second_segment (a b rest : gostring) :
  ~ In "/"%char a -> ~ In "/"%char b ->
  category_of (a ++ "/"%char :: b ++ "/"%char :: rest)
  = Returns (if strings.HasSuffix b (str ".md") then str "page" else b).
Proof.
  intros Ha Hb. unfold category_of.
  rewrite (Split_at_sep a _ "/"%char Ha), (Split_at_sep b _ "/"%char Hb).
  reflexivity.
Qed.

Lemma category_of_bare_file (a b : gostring) :
  ~ In "/"%char a -> ~ In "/"%char b ->
  category_of (a ++ "/"%char :: b)
  = Returns (if strings.HasSuffix b (str ".md") then str "page" else b).
Proof.
  intros Ha Hb. unfold category_of.
  rewrite (Split_at_sep a _ "/"%char Ha), (Split_no_sep b "/"%char Hb).
  reflexivity.
Qed.

(** With the content root "content" (an empty project root), that segment
    is the first one below the content root. *)
Lemma category_of_under_content (segment rest : gostring) :
  ~ In "/"%char segment ->
  category_of (str "content/" ++ segment ++ "/"%char :: rest)
  = Returns (if strings.HasSuffix segment (str ".md") then str "page"
             else segment).
Proof.
  intros H.
  apply (category_of_second_segment (str "content") segment rest);
    [|exact H].
  simpl. intros [E|[E|[E|[E|[E|[E|[E|[]]]]]]]]; discriminate E.
Qed.

(** C3. In a project rooted at site/, the file
    site/content/blog/2023-05-01-hello.md is registered with the category
    "content", not "blog", the first segment below the content root;
    [parseFilename] does take the project root into account and gives the
    URL path "blog/hello/". *)
Theorem category_ignores_project_root :
  let site :=
    site_after (readContent rooted_world (empty_site (str "site/"))
                            (str "site/content"))
               (empty_site (str "site/")) in
  (exists (feed : Feed) (log : list logline),
     buildSite rooted_world (str "site/") (str "config.toml")
     = Built site feed log)
  /\ map Filepath (pages site) = [str "site/content/blog/2023-05-01-hello.md"]
  /\ map Category (pages site) = [str "content"]
  /\ map UrlPath (pages site) = [str "blog/hello/"]
  /\ category_of (str "site/content/blog/2023-05-01-hello.md")
     = Returns (str "content")
  /\ category_of (str "content/blog/2023-05-01-hello.md")
     = Returns (str "blog").
Proof.
  cbv zeta. split.
  - do 2 eexists. vm_compute. reflexivity.
  - repeat split; vm_compute; reflexivity.
Qed.

(** ** parseFilename *)

Lemma not_In_existsb (s : gostring) :
  existsb (Ascii.eqb filepath.Separator) s = false
  <-> ~ In filepath.Separator s.
Proof.
  split.
  - intros H Hin. assert (E : existsb (Ascii.eqb filepath.Separator) s = true).
    { apply existsb_exists. exists filepath.Separator.
      split; [assumption|apply Ascii.eqb_refl]. }
    congruence.
  - intros H. destruct (existsb (Ascii.eqb filepath.Separator) s) eqn:E;
      [|reflexivity].
    apply existsb_exists in E as (x & Hin & Hx).
    apply Ascii.eqb_eq in Hx. subst x. contradiction.
Qed.

Lemma last_element_plain (f : gostring) :
  ~ In filepath.Separator f -> filepath.last_element f = f.
Proof.
  destruct f as [|c f]; intros H; simpl; [reflexivity|].
  assert (Hf : ~ In filepath.Separator f) by (intros Hin; apply H; now right).
  apply not_In_existsb in Hf. rewrite Hf.
  destruct (Ascii.eqb c filepath.Separator) eqn:E; [|reflexivity].
  apply Ascii.eqb_eq in E. subst c. exfalso. apply H. now left.
Qed.

Lemma last_element_after_sep (d f : gostring) :
  ~ In filepath.Separator f ->
  filepath.last_element (d ++ filepath.Separator :: f) = f.
Proof.
  intros H. induction d as [|c d IH]; simpl.
  - apply not_In_existsb in H as E. now rewrite E.
  - assert (E : existsb (Ascii.eqb filepath.Separator)
                        (d ++ filepath.Separator :: f) = true).
    { apply existsb_exists. exists filepath.Separator.
      split; [|apply Ascii.eqb_refl].
      apply in_or_app. right. now left. }
    now rewrite E.
Qed.

Lemma splits_as_last_element (path dir filename : gostring) :
  splits_as path dir filename -> filepath.last_element path = filename.
Proof.
  intros (-> & Hf & [->|[d ->]]).
  - now apply last_element_plain.
  - rewrite <- app_assoc. now apply last_element_after_sep.
Qed.

Lemma strip_trailing_slashes_none (s : gostring) (c : ascii) :
  c <> filepath.Separator ->
  filepath.strip_trailing_slashes (s ++ [c]) = s ++ [c].
Proof.
  intros H. unfold filepath.strip_trailing_slashes.
  rewrite rev_app_distr. simpl.
  destruct (Ascii.eqb c filepath.Separator) eqn:E.
  - apply Ascii.eqb_eq in E. contradiction.
  - simpl. now rewrite rev_involutive.
Qed.

Lemma splits_as_Base (path dir filename : gostring) :
  splits_as path dir filename -> filename <> [] ->
  filepath.Base path = filename.
Proof.
  intros Hsplit Hne.
  pose proof (splits_as_last_element _ _ _ Hsplit) as Hlast.
  destruct Hsplit as (-> & Hf & _).
  destruct (exists_last Hne) as (f' & c & ->).
  assert (Hc : c <> filepath.Separator).
  { intros ->. apply Hf. apply in_or_app. right. now left. }
  unfold filepath.Base.
  destruct (dir ++ f' ++ [c]) as [|x l] eqn:E.
  - destruct dir, f'; discriminate E.
  - rewrite <- E in Hlast |- *.
    rewrite app_assoc, (strip_trailing_slashes_none _ c Hc).
    rewrite <- app_assoc, Hlast.
    destruct (f' ++ [c]) eqn:E'; [|reflexivity].
    destruct f'; discriminate E'.
Qed.


Lemma TrimSuffix_none (s suffix : gostring) :
  strings.HasSuffix s suffix = false -> strings.TrimSuffix s suffix = s.
Proof. unfold strings.TrimSuffix. now intros ->. Qed.

(** The path as [parseFilename] has it once the content root and the
    extension are cut. *)
Lemma parseFilename_stripped (path rootDir : gostring) :
  parseFilename path rootDir
  = let path := strings.TrimSuffix (stripped_path path rootDir) (str "index") in
    let filename := filepath.Base path in
    let undated :=
      ((if negb (bytes_eqb path []) && negb (strings.HasSuffix path (str "/"))
        then path ++ str "/" else path),
       time.zero) in
    if is_dated filename then
      match time.Parse_2006_01_02 (firstn 10 filename) with
      | Some date =>
          (firstn (length path - length filename) path
             ++ skipn 11 filename ++ str "/",
           date)
      | None => undated
      end
    else undated.
Proof. reflexivity. Qed.

(** C6, where it holds: when the path, after the extension is cut, does not
    end in "index", a final segment of the form YYYY-MM-DD-slug with a valid
    date gives that date and the directory prefix, the slug and a slash. *)
Lemma parseFilename_dated (path rootDir dir filename : gostring)
  (date : time.Time) :
  splits_as (stripped_path path rootDir) dir filename ->
  strings.HasSuffix (stripped_path path rootDir) (str "index") = false ->
  is_dated filename = true ->
  time.Parse_2006_01_02 (firstn 10 filename) = Some date ->
  parseFilename path rootDir = (dir ++ skipn 11 filename ++ str "/", date).
Proof.
  intros Hsplit Hindex Hdated Hparse.
  rewrite parseFilename_stripped. cbv zeta.
  rewrite (TrimSuffix_none _ _ Hindex).
  assert (Hne : filename <> []) by (intros ->; discriminate Hdated).
  rewrite (splits_as_Base _ _ _ Hsplit Hne), Hdated, Hparse.
  destruct Hsplit as (-> & _ & _).
  rewrite length_app, Nat.add_sub, firstn_app, firstn_all, Nat.sub_diag.
  simpl firstn. now rewrite app_nil_r.
Qed.


(** C5. The final segment of content/blog/2023-05-01-hello/index.md is
    "index.md", which is not of the form YYYY-MM-DD-slug; [parseFilename]
    returns the date 2023-05-01 and the URL path "blog/2hello/".  The file
    content/reindex.md gets the URL path "re/". *)
Theorem parseFilename_index_in_dated_directory :
  filepath.last_element (str "content/blog/2023-05-01-hello/index.md")
  = str "index.md"
  /\ is_dated (str "index.md") = false
  /\ parseFilename (str "content/blog/2023-05-01-hello/index.md") []
     = (str "blog/2hello/", time.Date 2023 5 1)
  /\ time.IsZero (time.Date 2023 5 1) = false
  /\ parseFilename (str "content/reindex.md") [] = (str "re/", time.zero).
Proof. repeat split; vm_compute; reflexivity. Qed.

(** C6. The final segment of content/blog/2023-05-01-index.md is, after
    the extension is cut, "2023-05-01-index": 16 bytes, dashes at 4, 7 and
    10, a valid date.  [parseFilename] returns no date and the URL path
    "blog/2023-05-01-/"; for content/blog/2023-05-01-reindex.md it returns
    the date and "blog/re/". *)
Theorem parseFilename_slug_ending_in_index :
  filepath.last_element
    (stripped_path (str "content/blog/2023-05-01-index.md") [])
  = str "2023-05-01-index"
  /\ is_dated (str "2023-05-01-index") = true
  /\ time.Parse_2006_01_02 (firstn 10 (str "2023-05-01-index"))
     = Some (time.Date 2023 5 1)
  /\ parseFilename (str "content/blog/2023-05-01-index.md") []
     = (str "blog/2023-05-01-/", time.zero)
  /\ parseFilename (str "content/blog/2023-05-01-reindex.md") []
     = (str "blog/re/", time.Date 2023 5 1).
Proof. repeat split; vm_compute; reflexivity. Qed.

(** * Further properties of the pipeline *)

(** ** Suffixes and prefixes *)

Lemma HasSuffix_app_same (a b : gostring) :
  strings.HasSuffix (a ++ b) b = true.
Proof.
  unfold strings.HasSuffix. rewrite length_app.
  replace (length a + length b - length b) with (length a) by lia.
  rewrite skipn_app, skipn_all, Nat.sub_diag. simpl.
  rewrite bytes_eqb_refl, andb_true_r. apply Nat.leb_le. lia.
Qed.

Lemma HasSuffix_app_long (a b suffix : gostring) :
  length suffix <= length b ->
  strings.HasSuffix (a ++ b) suffix = strings.HasSuffix b suffix.
Proof.
  intros L. unfold strings.HasSuffix. rewrite length_app.
  replace (length suffix <=? length a + length b) with true
    by (symmetry; apply Nat.leb_le; lia).
  replace (length suffix <=? length b) with true
    by (symmetry; apply Nat.leb_le; lia).
  rewrite skipn_app.
  rewrite (skipn_all2 a) by lia.
  replace (length a + length b - length suffix - length a)
    with (length b - length suffix) by lia.
  reflexivity.
Qed.

Lemma TrimSuffix_app (a b : gostring) : strings.TrimSuffix (a ++ b) b = a.
Proof.
  unfold strings.TrimSuffix. rewrite HasSuffix_app_same, length_app.
  replace (length a + length b - length b) with (length a) by lia.
  rewrite firstn_app, Nat.sub_diag, firstn_all. simpl. apply app_nil_r.
Qed.

Lemma TrimPrefix_app (prefix s : gostring) :
  strings.TrimPrefix (prefix ++ s) prefix = s.
Proof.
  unfold strings.TrimPrefix. rewrite HasPrefix_app.
  rewrite skipn_app, skipn_all, Nat.sub_diag. reflexivity.
Qed.

(** ** parseFilename *)

(** X1. The URL path that [parseFilename] returns is empty or ends in a
    slash, whatever the path and the project root are. *)
Theorem parseFilename_urlPath_shape :
  forall path rootDir : gostring,
    fst (parseFilename path rootDir) = []
    \/ strings.HasSuffix (fst (parseFilename path rootDir)) (str "/") = true.
Proof.
  intros path rootDir. rewrite parseFilename_stripped. cbv zeta.
  set (p := strings.TrimSuffix (stripped_path path rootDir) (str "index")).
  assert (Hundated :
            fst ((if negb (bytes_eqb p []) && negb (strings.HasSuffix p (str "/"))
                  then p ++ str "/" else p), time.zero) = []
            \/ strings.HasSuffix
                 (fst ((if negb (bytes_eqb p [])
                           && negb (strings.HasSuffix p (str "/"))
                        then p ++ str "/" else p), time.zero)) (str "/") = true).
  { cbn [fst]. destruct (bytes_eqb p []) eqn:Enil.
    - left. now apply bytes_eqb_eq in Enil.
    - destruct (strings.HasSuffix p (str "/")) eqn:Eslash; cbn [negb andb].
      + now right.
      + right. apply HasSuffix_app_same. }
  destruct (is_dated (filepath.Base p)); [|exact Hundated].
  destruct (time.Parse_2006_01_02 (firstn 10 (filepath.Base p)));
    [|exact Hundated].
  right. cbn [fst]. rewrite app_assoc. apply HasSuffix_app_same.
Qed.

(** X2. [parseFilename] sees only the part of the path below the content
    root: a file below [rootDir ++ "content/"] gets the URL path and the
    date of the same file below "content/" in a project without root. *)
Theorem parseFilename_root_independent :
  forall rootDir rel : gostring,
    parseFilename (rootDir ++ str "content/" ++ rel) rootDir
    = parseFilename (str "content/" ++ rel) [].
Proof.
  intros rootDir rel. unfold parseFilename, filepath.ToSlash.
  rewrite (app_assoc rootDir), TrimPrefix_app.
  change ([] ++ str "content/") with (str "content/").
  now rewrite TrimPrefix_app.
Qed.

Lemma stripped_path_md (rootDir rel : gostring) :
  strings.HasSuffix rel (str ".html") = false ->
  stripped_path (rootDir ++ str "content/" ++ rel ++ str ".md") rootDir = rel.
Proof.
  intros H. unfold stripped_path, filepath.ToSlash.
  rewrite (app_assoc rootDir), TrimPrefix_app, TrimSuffix_app.
  now apply TrimSuffix_none.
Qed.

Lemma stripped_path_html (rootDir rel : gostring) :
  stripped_path (rootDir ++ str "content/" ++ rel ++ str ".html") rootDir = rel.
Proof.
  unfold stripped_path, filepath.ToSlash.
  rewrite (app_assoc rootDir), TrimPrefix_app.
  rewrite (TrimSuffix_none (rel ++ str ".html") (str ".md")).
  - apply TrimSuffix_app.
  - rewrite HasSuffix_app_long by (simpl; lia). reflexivity.
Qed.

Lemma splits_as_app (dir filename : gostring) :
  dir = [] \/ (exists d : gostring, dir = d ++ str "/") ->
  ~ In "/"%char filename ->
  splits_as (dir ++ filename) dir filename.
Proof. intros Hdir Hf. repeat split; assumption. Qed.

Lemma is_dated_length (filename : gostring) :
  is_dated filename = true -> 11 < length filename.
Proof.
  unfold is_dated. intros H.
  repeat (apply andb_true_iff in H as [H _]). now apply Nat.ltb_lt.
Qed.

(** X3. A Markdown or HTML file named YYYY-MM-DD-slug below the content
    root, with a valid date, is given that date and the URL path of its
    directory, the slug and a slash, for every project root.  The path
    below the content root, without its extension, must not end in ".html"
    or in "index". *)
Theorem parseFilename_dated_file :
  forall (rootDir dir filename : gostring) (date : time.Time),
    dir = [] \/ (exists d : gostring, dir = d ++ str "/") ->
    ~ In "/"%char filename ->
    strings.HasSuffix (dir ++ filename) (str ".html") = false ->
    strings.HasSuffix (dir ++ filename) (str "index") = false ->
    is_dated filename = true ->
    time.Parse_2006_01_02 (firstn 10 filename) = Some date ->
    parseFilename (rootDir ++ str "content/" ++ (dir ++ filename) ++ str ".md")
                  rootDir
    = (dir ++ skipn 11 filename ++ str "/", date)
    /\ parseFilename (rootDir ++ str "content/" ++ (dir ++ filename)
                              ++ str ".html") rootDir
       = (dir ++ skipn 11 filename ++ str "/", date).
Proof.
  intros rootDir dir filename date Hdir Hf Hhtml Hindex Hdated Hparse.
  pose proof (splits_as_app dir filename Hdir Hf) as Hsplit.
  split.
  - apply parseFilename_dated;
      rewrite ?(stripped_path_md rootDir (dir ++ filename) Hhtml); assumption.
  - apply parseFilename_dated;
      rewrite ?(stripped_path_html rootDir (dir ++ filename)); assumption.
Qed.

Lemma parseFilename_dated_file_witness :
  parseFilename (str "site/content/blog/2023-05-01-hello.md") (str "site/")
  = (str "blog/hello/", time.Date 2023 5 1).
Proof.
  refine (proj1 (parseFilename_dated_file
                   (str "site/") (str "blog/") (str "2023-05-01-hello")
                   (time.Date 2023 5 1) _ _ _ _ _ _)).
  - right. now exists (str "blog").
  - simpl. intuition discriminate.
  - reflexivity.
  - reflexivity.
  - reflexivity.
  - reflexivity.
Defined.



(** X5. An index.md or index.html takes the URL path of its directory and
    no date: "" at the content root, the directory path with its slash
    below it.  The name of the directory must not itself be of the form
    YYYY-MM-DD-slug with a valid date. *)
Theorem parseFilename_index_collapses :
  forall rootDir dir : gostring,
    dir = [] \/ (exists d : gostring, dir = d ++ str "/") ->
    is_dated (filepath.Base dir) = false
    \/ time.Parse_2006_01_02 (firstn 10 (filepath.Base dir)) = None ->
    parseFilename (rootDir ++ str "content/" ++ dir ++ str "index.md") rootDir
    = (dir, time.zero)
    /\ parseFilename (rootDir ++ str "content/" ++ dir ++ str "index.html")
                     rootDir
       = (dir, time.zero).
Proof.
  intros rootDir dir Hdir Hbase.
  assert (Hstripped : forall path,
            stripped_path path rootDir = dir ++ str "index" ->
            parseFilename path rootDir = (dir, time.zero)).
  { intros path E. rewrite parseFilename_stripped, E, TrimSuffix_app.
    cbv zeta.
    assert (Hpath : (if negb (bytes_eqb dir [])
                        && negb (strings.HasSuffix dir (str "/"))
                     then dir ++ str "/" else dir) = dir).
    { destruct Hdir as [->|[d ->]]; [reflexivity|].
      rewrite HasSuffix_app_same. cbn [negb]. now rewrite andb_false_r. }
    rewrite Hpath. destruct Hbase as [H|H]; rewrite H; [reflexivity|].
    now destruct (is_dated (filepath.Base dir)). }
  split; apply Hstripped.
  - change (str "index.md") with (str "index" ++ str ".md").
    rewrite (app_assoc dir). apply stripped_path_md.
    rewrite HasSuffix_app_long by (simpl; lia). reflexivity.
  - change (str "index.html") with (str "index" ++ str ".html").
    rewrite (app_assoc dir). apply stripped_path_html.
Qed.

Lemma parseFilename_index_collapses_witness :
  parseFilename (str "content/projects/index.md") [] = (str "projects/", time.zero)
  /\ parseFilename (str "content/projects/index.html") []
     = (str "projects/", time.zero).
Proof.
  apply (parseFilename_index_collapses [] (str "projects/")).
  - right. now exists (str "projects").
  - left. reflexivity.
Defined.

(** ** Header blocks *)

(** An occurrence that fits in a prefix of [s] is found in the prefix. *)
Lemma index_of_firstn_Some (sep : gostring) (s : gostring) :
  forall k i : nat,
    strings.index_of s sep = Some i ->
    i + length sep <= k ->
    strings.index_of (firstn k s) sep = Some i.
Proof.
  induction s as [|c s IH]; intros k i H L.
  - now rewrite firstn_nil.
  - simpl in H. destruct (strings.HasPrefix (c :: s) sep) eqn:E.
    + injection H as <-. simpl in L.
      rewrite <- (HasPrefix_firstn k (c :: s) sep L) in E.
      destruct (firstn k (c :: s)); simpl; now rewrite E.
    + destruct (strings.index_of s sep) as [i'|] eqn:Ei; [|discriminate].
      injection H as <-. destruct k as [|k]; [lia|].
      rewrite firstn_cons. simpl.
      rewrite <- firstn_cons, HasPrefix_firstn, E by lia.
      now rewrite (IH k i' eq_refl) by lia.
Qed.

(** X6. A file made of "+++", a header, "+++" and a body, where the first
    "+++" after the opening one is the closing one and lies within the
    first 1024 bytes: [parseFrontMatter] hands exactly the header to the
    decoder.  Unless the header and the body are both empty, the
    skip-front-matter step of [ParseContent] leaves exactly the body, which
    is what an .html page renders to.  When both are empty the file is the
    six bytes "++++++": the step leaves them all, and an .html page renders
    to them. *)
Theorem header_and_body_partition_the_file :
  forall (w : World) (p : Page) (header body : gostring),
    file_bytes w (Filepath p)
    = inl (frontMatter ++ header ++ frontMatter ++ body) ->
    strings.index_of (header ++ frontMatter ++ body) frontMatter
    = Some (length header) ->
    length header + 6 <= 1024 ->
    parseFrontMatter w p = toml_Unmarshal w header p
    /\ (header ++ body <> [] ->
        skipFrontMatter (frontMatter ++ header ++ frontMatter ++ body) = body
        /\ (strings.HasSuffix (Filepath p) (str ".html") = true ->
            ParseContent w p = (body, None)))
    /\ (header ++ body = [] ->
        skipFrontMatter (frontMatter ++ header ++ frontMatter ++ body)
        = str "++++++"
        /\ (strings.HasSuffix (Filepath p) (str ".html") = true ->
            ParseContent w p = (str "++++++", None))).
Proof.
  intros w p header body Hfile Hidx Hlen.
  set (file := frontMatter ++ header ++ frontMatter ++ body) in *.
  assert (Hskip3 : skipn 3 file = header ++ frontMatter ++ body) by reflexivity.
  assert (Hhtml : forall out : gostring,
            skipFrontMatter file = out ->
            strings.HasSuffix (Filepath p) (str ".html") = true ->
            ParseContent w p = (out, None)).
  { intros out Hcut Hext. unfold ParseContent. now rewrite Hfile, Hext, Hcut. }
  split; [|split].
  - rewrite (parseFrontMatter_open w p file Hfile). unfold frontMatter_of.
    rewrite Read_prefix by (lia || discriminate).
    rewrite HasPrefix_firstn by (simpl; lia).
    unfold file at 1. rewrite HasPrefix_app. cbn [negb].
    rewrite (skipn_firstn_swap 3 1024 file), Hskip3.
    change (1024 - 3) with 1021.
    rewrite (Index_present _ _ (length header)).
    + replace (Z.of_nat (length header) =? -1)%Z with false
        by (symmetry; apply Z.eqb_neq; lia).
      rewrite Nat2Z.id, firstn_firstn, Nat.min_l by lia.
      now rewrite firstn_app, Nat.sub_diag, firstn_all, app_nil_r.
    + apply index_of_firstn_Some; [assumption|].
      change (length frontMatter) with 3. lia.
  - intros Hne.
    assert (Hcut : skipFrontMatter file = body).
    { rewrite (skipFrontMatter_delimiter file (length header)).
      - unfold file. rewrite (app_assoc frontMatter), (app_assoc _ frontMatter).
        rewrite skipn_app.
        replace (3 + length header + 3)
          with (length ((frontMatter ++ header) ++ frontMatter))
          by (rewrite !length_app; simpl; lia).
        now rewrite skipn_all, Nat.sub_diag.
      - unfold file. rewrite !length_app. change (length frontMatter) with 3.
        destruct header, body; simpl; try lia. now contradiction Hne.
      - now rewrite Hskip3. }
    split; [exact Hcut|]. now apply Hhtml.
  - intros Hnil. apply app_eq_nil in Hnil as [-> ->].
    split; [reflexivity|]. now apply Hhtml.
Qed.

Lemma header_and_body_partition_the_file_witness :
  parseFrontMatter about_world (page_at (str "content/about.html"))
  = toml_Unmarshal about_world
      (["010"%char] ++ str "title = 'About'" ++ ["010"%char])
      (page_at (str "content/about.html"))
  /\ ParseContent about_world (page_at (str "content/about.html"))
     = (["010"%char] ++ str "<h1>About</h1>", None).
Proof.
  destruct (header_and_body_partition_the_file
              about_world (page_at (str "content/about.html"))
              (["010"%char] ++ str "title = 'About'" ++ ["010"%char])
              (["010"%char] ++ str "<h1>About</h1>")
              eq_refl eq_refl) as (Hhead & Hbody & _).
  - simpl. lia.
  - split; [exact Hhead|].
    refine (proj2 (Hbody _) eq_refl). discriminate.
Defined.

(** ** Registration *)

(** X7. [AddPageFromFile] changes the site only when it succeeds, and then
    only by appending: one page at the end of [pages], the same page at the
    end of [posts] exactly when it is dated, the title, URL and root of the
    site as they were.  It panics only on a path without slash. *)
Theorem AddPageFromFile_appends :
  forall (w : World) (s : Site) (file : gostring),
    (forall (s' : Site) (err : option error),
        AddPageFromFile w s file = Returns (s', err) ->
        match err with
        | Some _ => s' = s
        | None =>
            exists p : Page,
              pages s' = pages s ++ [p]
              /\ posts s' = (if dated p then posts s ++ [p] else posts s)
              /\ SiteTitle s' = SiteTitle s
              /\ SiteUrl s' = SiteUrl s
              /\ RootDir s' = RootDir s
        end)
    /\ (forall msg : gostring,
          AddPageFromFile w s file = Panics msg -> ~ In "/"%char file).
Proof.
  intros w s file. unfold AddPageFromFile.
  destruct (os_Stat w file) as [modTime|e].
  - destruct (parseFilename file (RootDir s)) as [urlPath date].
    destruct (category_of file) as [category|msg0] eqn:Ecat; cbn [bind].
    + match goal with
      | |- context [parseFrontMatter w ?p] =>
          destruct (parseFrontMatter w p) as [p' [e|]]
      end.
      * split; [|discriminate]. intros s' err H. now injection H as <- <-.
      * split; [|discriminate]. intros s' err H. injection H as <- <-.
        exists p'. cbn. repeat split; reflexivity.
    + split; [discriminate|]. intros msg _ Hin.
      apply in_split in Hin as (a & b & ->).
      destruct (category_of_returns a b) as [c Hc]. congruence.
  - split; [|discriminate]. intros s' err H. now injection H as <- <-.
Qed.

(** X8. An empty file cannot be registered: the one [Read] of
    [parseFrontMatter] returns [io.EOF], which [AddPageFromFile] returns,
    leaving the site as it was. *)
Theorem AddPageFromFile_empty_file :
  forall (w : World) (s : Site) (a b : gostring) (modTime : time.Time),
    os_Stat w (a ++ "/"%char :: b) = inl modTime ->
    file_bytes w (a ++ "/"%char :: b) = inl [] ->
    AddPageFromFile w s (a ++ "/"%char :: b) = Returns (s, Some EOF).
Proof.
  intros w s a b modTime Hstat Hfile. unfold AddPageFromFile. rewrite Hstat.
  destruct (parseFilename (a ++ "/"%char :: b) (RootDir s)) as [urlPath date].
  destruct (category_of_returns a b) as [category ->]. cbn [bind].
  unfold parseFrontMatter. cbn [Filepath]. now rewrite Hfile.
Qed.

(** X9. A file that is not empty and does not start with "+++" is
    registered with the values found at discovery: no title, the template
    "default.html", the modification time of the file, the URL path and
    date of [parseFilename], the permalink made of the site URL and the URL
    path, and the category of its path.  The decoder is not consulted. *)
Theorem AddPageFromFile_without_header :
  forall (w : World) (s : Site) (a b : gostring) (modTime : time.Time)
         (content : gostring),
    os_Stat w (a ++ "/"%char :: b) = inl modTime ->
    file_bytes w (a ++ "/"%char :: b) = inl content ->
    content <> [] ->
    strings.HasPrefix content frontMatter = false ->
    exists (p : Page) (s' : Site),
      AddPageFromFile w s (a ++ "/"%char :: b) = Returns (s', None)
      /\ pages s' = pages s ++ [p]
      /\ Title p = [] /\ Tags p = []
      /\ Template p = str "default.html"
      /\ DateModified p = modTime
      /\ (UrlPath p, DatePublished p)
         = parseFilename (a ++ "/"%char :: b) (RootDir s)
      /\ Permalink p = SiteUrl s ++ UrlPath p
      /\ category_of (a ++ "/"%char :: b) = Returns (Category p)
      /\ Filepath p = a ++ "/"%char :: b.
Proof.
  intros w s a b modTime content Hstat Hfile Hne Hpre.
  unfold AddPageFromFile. rewrite Hstat.
  destruct (parseFilename (a ++ "/"%char :: b) (RootDir s)) as [urlPath date].
  destruct (category_of_returns a b) as [category Hcat]. rewrite Hcat.
  cbn [bind].
  rewrite parseFrontMatter_open with (file := content) by exact Hfile.
  unfold frontMatter_of. rewrite Read_prefix by (lia || assumption).
  rewrite HasPrefix_firstn by (simpl; lia). rewrite Hpre. cbn [negb].
  do 2 eexists. split; [reflexivity|]. cbn. repeat split; reflexivity.
Qed.

Lemma AddPageFromFile_empty_file_witness :
  AddPageFromFile empty_file_world (empty_site []) (str "content/empty.md")
  = Returns (empty_site [], Some EOF).
Proof.
  exact (AddPageFromFile_empty_file
           empty_file_world (empty_site []) (str "content") (str "empty.md")
           (time.Date 2024 1 1) eq_refl eq_refl).
Defined.

Lemma AddPageFromFile_without_header_witness :
  exists (p : Page) (s' : Site),
    AddPageFromFile notes_world (empty_site []) (str "content/notes.html")
    = Returns (s', None)
    /\ pages s' = pages (empty_site []) ++ [p]
    /\ Title p = [] /\ Tags p = []
    /\ Template p = str "default.html"
    /\ DateModified p = time.Date 2024 1 1
    /\ (UrlPath p, DatePublished p)
       = parseFilename (str "content/notes.html") (RootDir (empty_site []))
    /\ Permalink p = SiteUrl (empty_site []) ++ UrlPath p
    /\ category_of (str "content/notes.html") = Returns (Category p)
    /\ Filepath p = str "content/notes.html".
Proof.
  apply (AddPageFromFile_without_header
           notes_world (empty_site []) (str "content") (str "notes.html")
           (time.Date 2024 1 1) notes_file).
  - reflexivity.
  - reflexivity.
  - discriminate.
  - reflexivity.
Defined.

(** ** Discovery *)

(** Registration looks at the site only for its URL and its root. *)
Lemma AddPageFromFile_elsewhere (w : World) (s s1 : Site) (file : gostring) :
  SiteUrl s1 = SiteUrl s -> RootDir s1 = RootDir s ->
  match AddPageFromFile w s1 file with
  | Returns (s1', None) =>
      exists p : Page,
        pages s1' = pages s1 ++ [p]
        /\ SiteUrl s1' = SiteUrl s1 /\ RootDir s1' = RootDir s1
        /\ page_added w s file = Some p
  | Returns (s1', Some e) =>
      s1' = s1 /\ AddPageFromFile w s file = Returns (s, Some e)
  | Panics _ => True
  end.
Proof.
  intros Hurl Hroot. unfold page_added, AddPageFromFile.
  rewrite Hurl, Hroot.
  destruct (os_Stat w file) as [modTime|e]; [|now split].
  destruct (parseFilename file (RootDir s)) as [urlPath date].
  destruct (category_of file) as [category|msg]; cbn [bind]; [|exact I].
  match goal with
  | |- context [parseFrontMatter w ?p] =>
      destruct (parseFrontMatter w p) as [p' [e|]]
  end.
  - now split.
  - exists p'. cbn [pages SiteUrl RootDir]. repeat split.
    now rewrite nth_error_app2, Nat.sub_diag by lia.
Qed.

Lemma run_calls_files (w : World) (s : Site) :
  forall (calls : list (gostring * option bool * option error))
         (s1 s' : Site) (err : option error),
    SiteUrl s1 = SiteUrl s -> RootDir s1 = RootDir s ->
    run_calls (readContent_visit w) calls s1 = Returns (s', err) ->
    exists (registered rest : list gostring) (new : list Page),
      walk_files calls = registered ++ rest
      /\ pages s' = pages s1 ++ new
      /\ map (page_added w s) registered = map Some new
      /\ match err with
         | None => rest = []
         | Some e =>
             exists (failing : gostring) (rest' : list gostring),
               rest = failing :: rest'
               /\ AddPageFromFile w s failing = Returns (s, Some e)
         end.
Proof.
  induction calls as [|[[path d] e] calls IH]; intros s1 s' err Hurl Hroot H.
  - simpl in H. injection H as <- <-. exists [], [], [].
    repeat split. now rewrite app_nil_r.
  - cbn [run_calls] in H.
    destruct (readContent_visit w path d e s1) as [[s2 err1]|msg] eqn:E;
      cbn [bind] in H; [|discriminate].
    unfold readContent_visit in E. destruct d as [[|]|]; [| |discriminate].
    + injection E as <- <-.
      apply (IH s1 s' err Hurl Hroot) in H
        as (registered & rest & new & H1 & H2 & H3 & H4).
      exists registered, rest, new. now repeat split.
    + pose proof (AddPageFromFile_elsewhere w s s1 path Hurl Hroot) as Hsame.
      rewrite E in Hsame. destruct err1 as [e1|].
      * destruct Hsame as [-> Hfail]. injection H as <- <-.
        exists [], (walk_files ((path, Some false, e) :: calls)), [].
        repeat split; [now rewrite app_nil_r|].
        now exists path, (walk_files calls).
      * destruct Hsame as (p & Hp & Hurl2 & Hroot2 & Hadded).
        apply (IH s2 s' err) in H
          as (registered & rest & new & H1 & H2 & H3 & H4);
          [|congruence|congruence].
        exists (path :: registered), rest, (p :: new).
        cbn [walk_files flat_map app map]. fold (walk_files calls).
        rewrite H1, H2, Hp, Hadded, H3, <- app_assoc.
        now repeat split.
Qed.

(** X10. The pages after [readContent] are the pages before it followed by
    the page that [AddPageFromFile] makes for each file of the walk, one
    page for each file, in walk order; directories give no page.  Without
    error every file of the walk has its page.  With an error, the pages
    are those of the files before the first file that [AddPageFromFile]
    fails on, and the error returned is the error of that file. *)
Theorem readContent_registers_in_walk_order :
  forall (w : World) (s s' : Site) (dir : gostring) (t : tree)
         (err : option error),
    walk_root w dir = inl t ->
    readContent w s dir = Returns (s', err) ->
    exists (registered rest : list gostring) (new : list Page),
      walk_files (walk_calls dir t) = registered ++ rest
      /\ pages s' = pages s ++ new
      /\ map (page_added w s) registered = map Some new
      /\ match err with
         | None => rest = []
         | Some e =>
             exists (failing : gostring) (rest' : list gostring),
               rest = failing :: rest'
               /\ AddPageFromFile w s failing = Returns (s, Some e)
         end.
Proof.
  intros w s s' dir t err Hroot Hread.
  rewrite (readContent_calls w s dir t Hroot) in Hread.
  destruct (run_calls (readContent_visit w) (walk_calls dir t) s)
    as [[s1 err1]|msg] eqn:E; cbn [bind] in Hread; [|discriminate].
  injection Hread as <- <-. cbn [set_posts pages].
  exact (run_calls_files w s _ s s1 err1 eq_refl eq_refl E).
Qed.

Lemma readContent_registers_in_walk_order_witness :
  exists (registered rest : list gostring) (new : list Page),
    walk_files (walk_calls (str "content")
                           (Dir None [ (str "a.md", File); (str "b.md", File);
                                       (str "c.md", File) ]))
    = registered ++ rest
    /\ pages (site_after (readContent second_unclosed_world (empty_site [])
                                      (str "content")) (empty_site []))
       = pages (empty_site []) ++ new
    /\ map (page_added second_unclosed_world (empty_site [])) registered
       = map Some new
    /\ exists (failing : gostring) (rest' : list gostring),
         rest = failing :: rest'
         /\ AddPageFromFile second_unclosed_world (empty_site []) failing
            = Returns (empty_site [],
                       Some (missing_closing (str "content/b.md"))).
Proof.
  apply (readContent_registers_in_walk_order
           second_unclosed_world (empty_site []) _ (str "content")
           (Dir None [ (str "a.md", File); (str "b.md", File);
                       (str "c.md", File) ])
           (Some (missing_closing (str "content/b.md")))).
  - reflexivity.
  - vm_compute. reflexivity.
Defined.

Lemma walkDir_without_readErr (w : World) (t : tree) :
  forall (path : gostring) (s : Site),
    walkDir (readContent_visit w) path (without_readErr t) s
    = walkDir (readContent_visit w) path t s.
Proof.
  revert t. fix IH 1. intros [|readErr entries] path s.
  - reflexivity.
  - cbn [without_readErr walkDir readContent_visit bind].
    assert (Hskip : (s0 <- match readErr with
                           | Some _ => Returns (s, @None error)
                           | None => Returns (s, None)
                           end ;;
                     Returns s0) = Returns (s, @None error))
      by now destruct readErr.
    destruct readErr as [e|]; cbn [bind];
      (induction entries as [|[name d1] dirs IHd] in s |- *;
       [reflexivity|];
       cbn [map fst snd]; rewrite IH;
       destruct (walkDir (readContent_visit w) (path ++ str "/" ++ name) d1 s)
         as [[s1 [e1|]]|msg]; cbn [bind]; [reflexivity|apply IHd|reflexivity]).
Qed.

(** X11. An error of [os.ReadDir] on the content directory or on a
    directory below it is never returned and changes nothing: [readContent]
    does what it does for the entries that were listed. *)
Theorem readContent_ignores_ReadDir_errors :
  forall (w : World) (t : tree) (s : Site) (dir : gostring),
    readContent (with_walk_root w (fun _ => inl t)) s dir
    = readContent (with_walk_root w (fun _ => inl (without_readErr t))) s dir.
Proof.
  intros w t s dir. unfold readContent, WalkDir. cbn [walk_root with_walk_root].
  change (readContent_visit (with_walk_root w (fun _ => inl t)))
    with (readContent_visit w).
  change (readContent_visit
            (with_walk_root w (fun _ => inl (without_readErr t))))
    with (readContent_visit w).
  now rewrite walkDir_without_readErr.
Qed.

(** X12. When the content directory cannot be examined ([os.Lstat] fails,
    as for a project without content directory), the callback of
    [readContent] is called with a nil entry and calls [d.IsDir()] on it:
    [readContent] panics, and so does [buildSite] once the templates and the
    configuration are read. *)
Theorem readContent_panics_without_content_directory :
  forall (w : World) (rootPath configFile : gostring)
         (templates : list gostring) (site : Site) (e : error),
    ParseGlob w (filepath_Join w rootPath (str "templates/*.html"))
    = inl templates ->
    parseConfig w {| pages := []; posts := []; SiteTitle := [];
                     SiteUrl := []; RootDir := rootPath |}
                (filepath_Join w rootPath configFile)
    = (site, None) ->
    walk_root w (filepath_Join w rootPath (str "content")) = inr e ->
    readContent w site (filepath_Join w rootPath (str "content"))
    = Panics nil_dereference
    /\ buildSite w rootPath configFile = Crashed nil_dereference.
Proof.
  intros w rootPath configFile templates site e Htpl Hcfg Hroot.
  assert (Hread : readContent w site (filepath_Join w rootPath (str "content"))
                  = Panics nil_dereference).
  { unfold readContent, WalkDir. now rewrite Hroot. }
  split; [exact Hread|].
  unfold buildSite. now rewrite Htpl, Hcfg, Hread.
Qed.

Lemma readContent_panics_without_content_directory_witness :
  readContent no_content_world (empty_site []) (str "content")
  = Panics nil_dereference
  /\ buildSite no_content_world [] (str "config.toml")
     = Crashed nil_dereference.
Proof.
  exact (readContent_panics_without_content_directory
           no_content_world [] (str "config.toml") [str "default.html"]
           (empty_site []) (PathError (str "lstat") (str "content"))
           eq_refl eq_refl eq_refl).
Defined.

(** X13. The [less] that [readContent] gives to [sort.Slice] is a strict
    weak ordering, as [sort.Slice] requires: no page is before itself, the
    order is transitive, and so is being of the same date. *)
Theorem byDate_strict_weak_order :
  (forall p : Page, byDate p p = false)
  /\ (forall p q r : Page,
        byDate p q = true -> byDate q r = true -> byDate p r = true)
  /\ (forall p q r : Page,
        byDate p q = false -> byDate q p = false ->
        byDate q r = false -> byDate r q = false ->
        byDate p r = false /\ byDate r p = false).
Proof.
  unfold byDate, time.After. repeat split; intros.
  - rewrite Z.gtb_ltb. apply Z.ltb_irrefl.
  - rewrite Z.gtb_ltb in *. apply Z.ltb_lt in H, H0. apply Z.ltb_lt. lia.
  - rewrite Z.gtb_ltb in *. apply Z.ltb_ge in H, H0, H1, H2. apply Z.ltb_ge. lia.
  - rewrite Z.gtb_ltb in *. apply Z.ltb_ge in H, H0, H1, H2. apply Z.ltb_ge. lia.
Qed.

(** ** Configuration *)

(** X14. After a successful [parseConfig] the site URL ends in a slash: it
    is the decoded URL, with a slash added only when it had none at its
    end.  When the decoder fails, the site is returned as the decoder left
    it. *)
Theorem parseConfig_site_url :
  forall (w : World) (s s' : Site) (file : gostring) (err : option error),
    parseConfig w s file = (s', err) ->
    match err with
    | None =>
        strings.HasSuffix (SiteUrl s') (str "/") = true
        /\ exists decoded : Site,
             toml_DecodeFile w file s = (decoded, None)
             /\ (strings.HasSuffix (SiteUrl decoded) (str "/") = true ->
                 s' = decoded)
             /\ (strings.HasSuffix (SiteUrl decoded) (str "/") = false ->
                 SiteUrl s' = SiteUrl decoded ++ str "/")
             /\ SiteTitle s' = SiteTitle decoded
             /\ RootDir s' = RootDir decoded
    | Some e => toml_DecodeFile w file s = (s', Some e)
    end.
Proof.
  intros w s s' file err. unfold parseConfig.
  destruct (toml_DecodeFile w file s) as [decoded [e|]].
  - intros H. now injection H as <- <-.
  - intros H. injection H as <- <-.
    change (str "/") with ["/"%char].
    destruct (strings.HasSuffix (SiteUrl decoded) ["/"%char]) eqn:E;
      cbn [SiteUrl SiteTitle RootDir].
    + split; [exact E|]. exists decoded. repeat split.
      * intros _. now destruct decoded.
      * intros H. congruence.
    + split; [apply (HasSuffix_app_same (SiteUrl decoded) ["/"%char])|].
      exists decoded. repeat split. intros H. congruence.
Qed.

(** ** The build *)

(** X15. [buildSite] ends after its last line exactly when the templates
    load, the configuration is read, [readContent] returns without error and
    the public directory is copied; the site it built is the one
    [readContent] returned.  No failure to render or write a page, the
    sitemap or the feed ends it early. *)
Theorem buildSite_completes_iff :
  forall (w : World) (rootPath configFile : gostring) (site : Site),
    (exists (feed : Feed) (log : list logline),
        buildSite w rootPath configFile = Built site feed log)
    <-> (exists (templates : list gostring) (configured : Site),
            ParseGlob w (filepath_Join w rootPath (str "templates/*.html"))
            = inl templates
            /\ parseConfig w {| pages := []; posts := []; SiteTitle := [];
                                SiteUrl := []; RootDir := rootPath |}
                           (filepath_Join w rootPath configFile)
               = (configured, None)
            /\ readContent w configured
                           (filepath_Join w rootPath (str "content"))
               = Returns (site, None)
            /\ copyDirRecursively w (filepath_Join w rootPath (str "public"))
                                  (str "build")
               = None).
Proof.
  intros w rootPath configFile site. unfold buildSite. split.
  - intros (feed & log & H).
    destruct (ParseGlob w _) as [templates|e]; [|discriminate].
    destruct (parseConfig w _ _) as [configured [e|]]; [discriminate|].
    destruct (readContent w configured _) as [[site' [e|]]|msg] eqn:Eread;
      [discriminate| |discriminate].
    destruct (createRSSFeed w site') as [[feed' log3] err].
    destruct (copyDirRecursively w _ _) as [e|]; [discriminate|].
    injection H as <- _ _. exists templates, configured. now repeat split.
  - intros (templates & configured & -> & -> & -> & Hcopy).
    destruct (createRSSFeed w site) as [[feed' log3] err]. rewrite Hcopy.
    now eexists _, _.
Qed.

(** X16. The log of a build that completes holds, for every page that
    [buildPage] fails on, a warning with the path of its source file and
    the error; a warning for a failure of the sitemap and one for a failure
    of the feed; every line that [createRSSFeed] logged; and, as its last
    line, the count of the pages and the milliseconds taken.  The feed of
    the outcome is the one [createRSSFeed] made.  When nothing fails, that
    last line is the whole log. *)
Theorem buildSite_logs_every_failure :
  forall (w : World) (rootPath configFile : gostring) (site : Site)
         (feed : Feed) (log : list logline) (templates : list gostring),
    buildSite w rootPath configFile = Built site feed log ->
    ParseGlob w (filepath_Join w rootPath (str "templates/*.html"))
    = inl templates ->
    let built := Info (str "Built %d pages in %d ms" ++ LF)
                      [Z.of_nat (length (pages site)); Milliseconds w] in
    (forall (p : Page) (e : error),
        In p (pages site) ->
        buildPage w templates site p = Some e ->
        In (Warn (str "Error processing %s: %s" ++ LF) [Filepath p] e) log)
    /\ (forall e : error,
          snd (createSitemap w site) = Some e ->
          In (Warn (str "Error creating sitemap: %s" ++ LF) [] e) log)
    /\ (forall e : error,
          snd (createRSSFeed w site) = Some e ->
          In (Warn (str "Error creating RSS feed: %s" ++ LF) [] e) log)
    /\ (forall line : logline,
          In line (snd (fst (createRSSFeed w site))) -> In line log)
    /\ feed = fst (fst (createRSSFeed w site))
    /\ (exists before : list logline, log = before ++ [built])
    /\ ((forall p : Page, In p (pages site) ->
                          buildPage w templates site p = None) ->
        snd (createSitemap w site) = None ->
        snd (fst (createRSSFeed w site)) = [] ->
        snd (createRSSFeed w site) = None ->
        log = [built]).
Proof.
  intros w rootPath configFile site feed log templates H Htpl.
  unfold buildSite in H. rewrite Htpl in H.
  destruct (parseConfig w _ _) as [configured [e|]]; [discriminate|].
  destruct (readContent w configured _) as [[site' [e|]]|msg];
    [discriminate| |discriminate].
  destruct (createRSSFeed w site') as [[feed' log3] err] eqn:Efeed.
  destruct (copyDirRecursively w _ _) as [e|]; [discriminate|].
  assert (Hsite : site' = site) by congruence. subst site'.
  assert (Hfeed : feed' = feed) by congruence. subst feed'.
  assert (Hlog :
            log
            = flat_map (fun p => warn_of (str "Error processing %s: %s" ++ LF)
                                   [Filepath p] (buildPage w templates site p))
                       (pages site)
              ++ warn_of (str "Error creating sitemap: %s" ++ LF) []
                         (snd (createSitemap w site))
              ++ log3
              ++ warn_of (str "Error creating RSS feed: %s" ++ LF) [] err
              ++ [Info (str "Built %d pages in %d ms" ++ LF)
                       [Z.of_nat (length (pages site)); Milliseconds w]])
    by congruence.
  clear H. cbv zeta. rewrite Efeed. cbn [fst snd]. rewrite Hlog.
  split; [|split; [|split; [|split; [|split; [|split]]]]].
  - intros p e Hin Hbuild. apply in_or_app. left.
    apply in_flat_map. exists p. split; [assumption|].
    rewrite Hbuild. now left.
  - intros e He. apply in_or_app. right. apply in_or_app. left.
    rewrite He. now left.
  - intros e He. subst err. do 3 (apply in_or_app; right).
    apply in_or_app. left. now left.
  - intros line Hline. do 2 (apply in_or_app; right).
    apply in_or_app. now left.
  - reflexivity.
  - eexists. rewrite !app_assoc. reflexivity.
  - intros Hpages Hmap Hlog3 Herr. subst log3 err. rewrite Hmap.
    cbn [warn_of app].
    assert (Hnone : forall l : list Page,
              (forall p : Page, In p l -> buildPage w templates site p = None) ->
              flat_map (fun p => warn_of (str "Error processing %s: %s" ++ LF)
                                   [Filepath p] (buildPage w templates site p))
                       l = []).
    { induction l as [|p l IH]; intros Hl; [reflexivity|].
      cbn [flat_map]. rewrite (Hl p) by now left. cbn [warn_of app].
      apply IH. intros q Hq. apply Hl. now right. }
    now rewrite (Hnone _ Hpages).
Qed.

Lemma parseConfig_site_url_witness :
  strings.HasSuffix
    (SiteUrl (fst (parseConfig about_world
                               {| pages := []; posts := []; SiteTitle := [];
                                  SiteUrl := []; RootDir := [] |}
                               (str "config.toml"))))
    (str "/") = true.
Proof.
  exact (proj1 (parseConfig_site_url
                  about_world
                  {| pages := []; posts := []; SiteTitle := [];
                     SiteUrl := []; RootDir := [] |}
                  (empty_site []) (str "config.toml") None eq_refl)).
Defined.

Lemma buildSite_completes_iff_witness :
  exists (feed : Feed) (log : list logline),
    buildSite about_world [] (str "config.toml")
    = Built (site_after (readContent about_world (empty_site [])
                                     (str "content")) (empty_site []))
            feed log.
Proof.
  apply (proj2 (buildSite_completes_iff
                  about_world [] (str "config.toml")
                  (site_after (readContent about_world (empty_site [])
                                           (str "content")) (empty_site [])))).
  exists [str "default.html"], (empty_site []).
  repeat split; vm_compute; reflexivity.
Defined.

Lemma buildSite_logs_every_failure_witness :
  In (Warn (str "Error processing %s: %s" ++ LF) [str "content/about.html"]
           (Errorf (str "invalid template name: default.html")))
     (log_of (buildSite no_default_template_world [] (str "config.toml"))).
Proof.
  pose (site := site_after (readContent no_default_template_world
                                        (empty_site []) (str "content"))
                           (empty_site [])).
  assert (E : buildSite no_default_template_world [] (str "config.toml")
              = Built site (fst (fst (createRSSFeed no_default_template_world site)))
                      (log_of (buildSite no_default_template_world []
                                         (str "config.toml"))))
    by (vm_compute; reflexivity).
  destruct (buildSite_logs_every_failure
              no_default_template_world [] (str "config.toml") site _ _
              [str "base.html"] E eq_refl) as (Hpages & _).
  apply (Hpages (nth 0 (pages site) (page_at []))
                (Errorf (str "invalid template name: default.html"))).
  - vm_compute. now left.
  - vm_compute. reflexivity.
Defined.

(** ** Template helpers and the feed *)

Lemma filterPosts_as_filter (posts : list Page) (tag : gostring) :
  filterPosts posts tag
  = if bytes_eqb tag (str "page") then posts
    else filter (fun p => bytes_eqb (Category p) tag) posts.
Proof.
  unfold filterPosts. destruct (bytes_eqb tag (str "page")); [reflexivity|].
  pose proof (filterPosts_loop tag posts (length posts) 0 0 posts
                eq_refl eq_refl (Nat.le_refl 0) eq_refl eq_refl) as H.
  now destruct (fold_left (filterPosts_step tag) (seq 0 (length posts))
                          (posts, 0)) as [arr n].
Qed.

Lemma StronglySorted_filter {A : Type} (R : A -> A -> Prop) (f : A -> bool)
  (l : list A) :
  StronglySorted R l -> StronglySorted R (filter f l).
Proof.
  induction 1 as [|a l Hs IH Hall]; simpl; [constructor|].
  destruct (f a); [|exact IH].
  constructor; [exact IH|].
  rewrite Forall_forall in *. intros x Hx. apply Hall.
  now apply filter_In in Hx as [Hx _].
Qed.

(** X17. What [filterPosts] returns is taken from its argument and keeps
    its order: every post returned is a post given, posts sorted for any
    relation stay sorted, none is added, filtering twice is filtering once,
    and filtering a concatenation is filtering its parts. *)
Theorem filterPosts_keeps_order :
  forall (posts : list Page) (tag : gostring),
    (forall p : Page, In p (filterPosts posts tag) -> In p posts)
    /\ (forall R : Page -> Page -> Prop,
          StronglySorted R posts -> StronglySorted R (filterPosts posts tag))
    /\ length (filterPosts posts tag) <= length posts
    /\ filterPosts (filterPosts posts tag) tag = filterPosts posts tag
    /\ (forall more : list Page,
          filterPosts (posts ++ more) tag
          = filterPosts posts tag ++ filterPosts more tag).
Proof.
  intros posts tag. destruct (bytes_eqb tag (str "page")) eqn:E.
  - assert (Hf : forall l : list Page, filterPosts l tag = l)
      by (intros l; now rewrite filterPosts_as_filter, E).
    rewrite !Hf. repeat split; auto. intros more. now rewrite !Hf.
  - assert (Hf : forall l : list Page,
              filterPosts l tag
              = filter (fun p => bytes_eqb (Category p) tag) l)
      by (intros l; now rewrite filterPosts_as_filter, E).
    rewrite !Hf. repeat split.
    + intros p Hp. now apply filter_In in Hp as [Hp _].
    + intros R. apply StronglySorted_filter.
    + apply filter_length_le.
    + induction posts as [|p posts IH]; simpl; [reflexivity|].
      destruct (bytes_eqb (Category p) tag) eqn:Ep; simpl;
        [rewrite Ep; now f_equal|exact IH].
    + intros more. rewrite !Hf. apply filter_app.
Qed.

Lemma StronglySorted_firstn {A : Type} (R : A -> A -> Prop) (n : nat)
  (l : list A) :
  StronglySorted R l -> StronglySorted R (firstn n l).
Proof.
  intros H. revert n. induction H as [|a l Hs IH Hall]; intros [|n]; simpl;
    try constructor.
  - apply IH.
  - rewrite Forall_forall in *. intros x Hx. apply Hall.
    rewrite <- (firstn_skipn n l). apply in_or_app. now left.
Qed.

Lemma feed_entry_of (w : World) (p : Page) (it : Item) :
  In it (feed_entry w p) ->
  PubDate it = DatePublished p /\ Link it = Permalink p
  /\ GUID it = Permalink p /\ ItemTitle it = Title p.
Proof.
  unfold feed_entry. destruct (ParseContent w p) as [c [e|]]; [contradiction|].
  intros [<-|[]]. now repeat split.
Qed.

Lemma feed_entries_sorted (w : World) (l : list Page) :
  StronglySorted (fun p q => (DatePublished p >= DatePublished q)%Z) l ->
  StronglySorted (fun a b => (PubDate a >= PubDate b)%Z)
                 (flat_map (feed_entry w) l).
Proof.
  induction 1 as [|p l Hs IH Hall]; cbn [flat_map]; [constructor|].
  assert (Hrest : forall a b : Item,
            In a (feed_entry w p) -> In b (flat_map (feed_entry w) l) ->
            (PubDate a >= PubDate b)%Z).
  { intros a b Ha Hb. apply feed_entry_of in Ha as (-> & _).
    apply in_flat_map in Hb as (q & Hq & Hb).
    apply feed_entry_of in Hb as (-> & _).
    rewrite Forall_forall in Hall. now apply Hall. }
  unfold feed_entry in Hrest |- * at 1.
  destruct (ParseContent w p) as [c [e|]]; [exact IH|].
  cbn [app]. constructor; [exact IH|].
  apply Forall_forall. intros b Hb. apply Hrest; [now left|assumption].
Qed.

(** X18. Every item of the feed has the permalink of its post as link and
    as GUID, and the title and date of that post.  When the posts are in
    descending order of date, so are the items of the feed; a site without
    posts has a feed without items. *)
Theorem createRSSFeed_items_follow_posts :
  forall (w : World) (s : Site),
    let feed := fst (fst (createRSSFeed w s)) in
    (forall it : Item,
        In it (Items feed) ->
        GUID it = Link it
        /\ exists p : Page,
             In p (posts s) /\ Link it = Permalink p
             /\ ItemTitle it = Title p /\ PubDate it = DatePublished p)
    /\ (StronglySorted (fun p q => (DatePublished p >= DatePublished q)%Z)
                       (posts s) ->
        StronglySorted (fun a b => (PubDate a >= PubDate b)%Z) (Items feed))
    /\ (posts s = [] -> Items feed = [])
    /\ ChannelTitle feed = SiteTitle s
    /\ ChannelLink feed = SiteUrl s.
Proof.
  intros w s. cbv zeta. rewrite createRSSFeed_unfold.
  cbn [fst Items ChannelTitle ChannelLink]. repeat split.
  - apply in_flat_map in H as (p & _ & Hit).
    apply feed_entry_of in Hit as (_ & -> & -> & _). reflexivity.
  - apply in_flat_map in H as (p & Hp & Hit).
    apply feed_entry_of in Hit as (Hd & Hl & _ & Ht).
    exists p. repeat split; try assumption.
    rewrite <- (firstn_skipn 10 (posts s)). apply in_or_app. now left.
  - intros Hsorted. apply feed_entries_sorted.
    now apply StronglySorted_firstn.
  - now intros ->.
Qed.

(** ** More on header blocks and rendering *)

(** X19. For a file that starts with "+++" and whose next "+++" is at
    offset [pos] after the first three bytes, [parseFrontMatter] finds the
    closing delimiter exactly when it ends within the first 1024 bytes of
    the file: then the decoder gets the [pos] bytes between the delimiters;
    otherwise the file is rejected as unclosed. *)
Theorem parseFrontMatter_closing_within_prefix :
  forall (w : World) (p : Page) (file : gostring) (pos : nat),
    file_bytes w (Filepath p) = inl file ->
    strings.HasPrefix file frontMatter = true ->
    strings.index_of (skipn 3 file) frontMatter = Some pos ->
    (3 + pos + 3 <= 1024 ->
     parseFrontMatter w p = toml_Unmarshal w (firstn pos (skipn 3 file)) p)
    /\ (1024 < 3 + pos + 3 ->
        parseFrontMatter w p = (p, Some (missing_closing (Filepath p)))).
Proof.
  intros w p file pos Hfile Hpre Hidx.
  rewrite (parseFrontMatter_open w p file Hfile). split; intros Hpos.
  - unfold frontMatter_of.
    rewrite Read_prefix by (lia || (intros ->; discriminate Hpre)).
    rewrite HasPrefix_firstn by (simpl; lia). rewrite Hpre. cbn [negb].
    rewrite (skipn_firstn_swap 3 1024 file). change (1024 - 3) with 1021.
    rewrite (Index_present _ _ pos).
    + replace (Z.of_nat pos =? -1)%Z with false
        by (symmetry; apply Z.eqb_neq; lia).
      now rewrite Nat2Z.id, firstn_firstn, Nat.min_l by lia.
    + apply index_of_firstn_Some; [assumption|].
      change (length frontMatter) with 3. lia.
  - apply frontMatter_of_unclosed; [assumption|].
    destruct (strings.index_of (firstn 1021 (skipn 3 file)) frontMatter)
      as [i|] eqn:E; [|reflexivity].
    apply index_of_firstn in E as [E L].
    rewrite Hidx in E. injection E as <-.
    change (length frontMatter) with 3 in L. lia.
Qed.

Lemma parseFrontMatter_closing_within_prefix_witness :
  parseFrontMatter about_world (page_at (str "content/about.html"))
  = toml_Unmarshal about_world (firstn 17 (skipn 3 about_file))
                   (page_at (str "content/about.html")).
Proof.
  refine (proj1 (parseFrontMatter_closing_within_prefix
                   about_world (page_at (str "content/about.html"))
                   about_file 17 eq_refl eq_refl eq_refl) _).
  lia.
Defined.

(** X20. [ParseContent] returns no content with an error.  For a path that
    ends in ".html" its only error is that of reading the file; for any
    other path it is that or the error of the Markdown converter. *)
Theorem ParseContent_errors :
  forall (w : World) (p : Page) (e : error),
    snd (ParseContent w p) = Some e ->
    fst (ParseContent w p) = []
    /\ (file_bytes w (Filepath p) = inr e
        \/ (strings.HasSuffix (Filepath p) (str ".html") = false
            /\ exists file : gostring,
                 file_bytes w (Filepath p) = inl file
                 /\ snd (md_Convert w (skipFrontMatter file)) = Some e)).
Proof.
  intros w p e. unfold ParseContent.
  destruct (file_bytes w (Filepath p)) as [file|e0].
  - destruct (strings.HasSuffix (Filepath p) (str ".html")); [discriminate|].
    destruct (md_Convert w (skipFrontMatter file)) as [out [e1|]] eqn:E;
      [|discriminate].
    cbn [fst snd]. intros H. injection H as <-.
    split; [reflexivity|]. right. split; [reflexivity|].
    exists file. now rewrite E.
  - cbn [fst snd]. intros H. injection H as <-. split; [reflexivity|now left].
Qed.

Lemma ParseContent_errors_witness :
  fst (ParseContent about_world (page_at (str "content/missing.md"))) = [].
Proof.
  exact (proj1 (ParseContent_errors
                  about_world (page_at (str "content/missing.md"))
                  (PathError (str "open") (str "content/missing.md"))
                  eq_refl)).
Defined.

(** ** More on discovery *)

(** X21. With an empty project root the category that [AddPageFromFile]
    takes from the path is the first segment below content/: the name of
    the directory for a file in a directory, and for a file directly in
    content/ its own name, extension included.  A segment that ends in
    ".md" gives "page" instead. *)
Theorem category_below_content_root :
  forall first rest : gostring,
    ~ In "/"%char first ->
    category_of (str "content/" ++ first ++ "/"%char :: rest)
    = Returns (if strings.HasSuffix first (str ".md") then str "page"
               else first)
    /\ category_of (str "content/" ++ first)
       = Returns (if strings.HasSuffix first (str ".md") then str "page"
                  else first).
Proof.
  intros first rest H.
  assert (Hcontent : ~ In "/"%char (str "content")).
  { simpl. intros [E|[E|[E|[E|[E|[E|[E|[]]]]]]]]; discriminate E. }
  split.
  - exact (category_of_second_segment (str "content") first rest Hcontent H).
  - exact (category_of_bare_file (str "content") first Hcontent H).
Qed.

Lemma category_below_content_root_witness :
  category_of (str "content/blog/2023-05-01-hello.md") = Returns (str "blog")
  /\ category_of (str "content/about.html") = Returns (str "about.html").
Proof.
  split.
  - refine (proj1 (category_below_content_root
                     (str "blog") (str "2023-05-01-hello.md") _)).
    simpl. intuition discriminate.
  - refine (proj2 (category_below_content_root (str "about.html") [] _)).
    simpl. intuition discriminate.
Defined.

Lemma AddPageFromFile_error (w : World) (s s' : Site) (file : gostring)
  (e : error) :
  AddPageFromFile w s file = Returns (s', Some e) -> s' = s.
Proof.
  unfold AddPageFromFile.
  destruct (os_Stat w file) as [modTime|e0];
    [|intros H; now injection H as <- _].
  destruct (parseFilename file (RootDir s)) as [urlPath date].
  destruct (category_of file) as [category|msg]; cbn [bind]; [|discriminate].
  match goal with
  | |- context [parseFrontMatter w ?p] =>
      destruct (parseFrontMatter w p) as [p' [e1|]]
  end.
  - intros H. now injection H as <- _.
  - discriminate.
Qed.

(** X22. The error of the first file, in walk order, that
    [AddPageFromFile] fails on, whatever that error is, ends the walk:
    [readContent] returns it with the pages registered before that file and
    their posts sorted, and [buildSite] ends in [log.Fatal] with it. *)
Theorem readContent_returns_first_error :
  forall (w : World) (s s1 s2 : Site) (dir : gostring) (t : tree)
         (pre post : list (gostring * option bool * option error))
         (file : gostring) (e : error),
    walk_root w dir = inl t ->
    walk_calls dir t = pre ++ (file, Some false, None) :: post ->
    run_calls (readContent_visit w) pre s = Returns (s1, None) ->
    AddPageFromFile w s1 file = Returns (s2, Some e) ->
    readContent w s dir
    = Returns (set_posts s1 (sort_Slice w byDate (posts s1)), Some e)
    /\ (forall (rootPath configFile : gostring) (templates : list gostring),
          ParseGlob w (filepath_Join w rootPath (str "templates/*.html"))
          = inl templates ->
          parseConfig w {| pages := []; posts := []; SiteTitle := [];
                           SiteUrl := []; RootDir := rootPath |}
                      (filepath_Join w rootPath configFile)
          = (s, None) ->
          dir = filepath_Join w rootPath (str "content") ->
          buildSite w rootPath configFile
          = Fatal (str "Error reading content/: %s") e).
Proof.
  intros w s s1 s2 dir t pre post file e Hroot Hcalls Hpre Hadd.
  pose proof (AddPageFromFile_error w s1 s2 file e Hadd) as ->.
  assert (Hread : readContent w s dir
                  = Returns (set_posts s1 (sort_Slice w byDate (posts s1)),
                             Some e)).
  { rewrite (readContent_calls w s dir t Hroot), Hcalls.
    rewrite (run_calls_stops (readContent_visit w) pre post file (Some false)
               None s s1 s1 e Hpre Hadd).
    reflexivity. }
  split; [exact Hread|].
  intros rootPath configFile templates Htpl Hcfg Hdir.
  unfold buildSite. rewrite Htpl, Hcfg, <- Hdir, Hread. reflexivity.
Qed.

Lemma readContent_returns_first_error_witness :
  readContent empty_file_world (empty_site []) (str "content")
  = Returns (empty_site [], Some EOF)
  /\ buildSite empty_file_world [] (str "config.toml")
     = Fatal (str "Error reading content/: %s") EOF.
Proof.
  destruct (readContent_returns_first_error
              empty_file_world (empty_site []) (empty_site []) (empty_site [])
              (str "content") (Dir None [(str "empty.md", File)])
              [(str "content", Some true, None)] []
              (str "content/empty.md") EOF
              eq_refl eq_refl eq_refl eq_refl) as [Hread Hbuild].
  split; [exact Hread|].
  exact (Hbuild [] (str "config.toml") [str "default.html"]
                eq_refl eq_refl eq_refl).
Defined.
